(** * Manifest routes of the schematic API (schematic_api/api/routes.py)

    A shallow embedding of the manifest generation, validation and
    submission routes.  Python code that logs, calls collaborators and
    raises is written in a small monad with a trace of events and an
    exception result; the collaborators the routes call (the flask
    application, connexion's request, pandas, the schematic library)
    are the fields of a [World]. *)

From Stdlib Require Import Ascii String.
From stdpp Require Import base option list strings gmap.

Local Open Scope string_scope.
Local Open Scope list_scope.

(** ** Python values, exceptions and effects *)

Module Py.

(** The exceptions the routes raise or let through. *)
Inductive exn : Type :=
| TypeError
| IndexError
| KeyError (key : string)
| UnboundLocalError
| ValueError (msg : string)
| FileNotFoundError (msg : string)
| CollaboratorError (msg : string).

Inductive result (A : Type) : Type :=
| Return (a : A)
| Raise (e : exn).
Arguments Return {A} a.
Arguments Raise {A} e.

Definition is_raise {A} (r : result A) : bool :=
  match r with Raise _ => true | Return _ => false end.

(** Truthiness, as [if x:] and [not x] read it. *)
Class Truthy (A : Type) := truthy : A → bool.

#[global] Instance truthy_bool : Truthy bool := λ b, b.
#[global] Instance truthy_string : Truthy string :=
  λ s, match s with EmptyString => false | String _ _ => true end.
#[global] Instance truthy_list {A} : Truthy (list A) :=
  λ l, match l with [] => false | _ :: _ => true end.
#[global] Instance truthy_option {A} `{Truthy A} : Truthy (option A) :=
  λ o, match o with None => false | Some a => truthy a end.

(** [str.lower] on the ASCII range and [str.startswith]. *)
Definition lower_ascii (c : ascii) : ascii :=
  let n := nat_of_ascii c in
  if (65 <=? n)%nat && (n <=? 90)%nat then ascii_of_nat (n + 32) else c.

Fixpoint lower (s : string) : string :=
  match s with
  | EmptyString => EmptyString
  | String c s' => String (lower_ascii c) (lower s')
  end.

Definition startswith (s p : string) : bool := String.prefix p s.

End Py.
Export Py.

(** ** Events and the monad *)

(** The keyword arguments one manifest request hands to
    [ManifestGenerator(...)] and to its [get_manifest(...)]. *)
Record generator_call : Type := GeneratorCall {
  gc_path_to_json_ld : string;
  gc_title : string;
  gc_root : string;
  gc_use_annotations : option bool;
  gc_dataset_id : string;
  gc_output_format : option string;
  gc_access_token : option string;
}.

(** The keyword arguments of [submit_metadata_manifest]. *)
Record submit_call : Type := SubmitCall {
  sc_path_to_json_ld : string;
  sc_manifest_path : string;
  sc_dataset_id : string;
  sc_validate_component : option string;
  sc_access_token : string;
  sc_manifest_record_type : string;
  sc_restrict_rules : bool;
  sc_table_manipulation : string;
  sc_use_schema_label : bool;
}.

Inductive event : Type :=
| Warning (msg : string)
| LoadConfig (path : string) (asset_view : option string)
| ManifestRequested (c : generator_call)
| Validated (manifestPath rootNode : string) (restrict_rules : option bool)
| Submitted (c : submit_call).

Definition M (A : Type) : Type := list event → result A * list event.

Definition ret {A} (a : A) : M A := λ tr, (Return a, tr).
Definition raise {A} (e : exn) : M A := λ tr, (Raise e, tr).
Definition bind {A B} (m : M A) (k : A → M B) : M B :=
  λ tr, match m tr with
        | (Return a, tr') => k a tr'
        | (Raise e, tr') => (Raise e, tr')
        end.
Definition emit (ev : event) : M unit := λ tr, (Return tt, tr ++ [ev]).
Definition lift {A} (r : result A) : M A := λ tr, (r, tr).

(** [try: body except: handler], the bare [except] of the source. *)
Definition try_except {A} (body : M A) (handler : M A) : M A :=
  λ tr, match body tr with
        | (Return a, tr') => (Return a, tr')
        | (Raise _, tr') => handler tr'
        end.

#[global] Instance M_ret : MRet M := @ret.
#[global] Instance M_bind : MBind M := λ A B k m, bind m k.

(** [l[i]] *)
Definition index {A} (l : list A) (i : nat) : M A :=
  match l !! i with
  | Some a => ret a
  | None => raise IndexError
  end.

(** [d[k]] on a mapping *)
Definition getitem {A} (d : gmap string A) (k : string) : M A :=
  match d !! k with
  | Some a => ret a
  | None => raise (KeyError k)
  end.

Definition run {A} (m : M A) : result A * list event := m [].

(** The manifests the trace says were asked of the generator. *)
Definition requested (tr : list event) : list generator_call :=
  omap (λ ev, match ev with ManifestRequested c => Some c | _ => None end) tr.

Definition warnings (tr : list event) : list string :=
  omap (λ ev, match ev with Warning m => Some m | _ => None end) tr.

(** ** The collaborators *)

(** What [get_manifest] hands back: a google sheet url or the path of
    an xlsx file, or a dataframe. *)
Inductive manifest : Type :=
| MStr (s : string)
| MFrame (rows : list (list string)).

(** What a manifest route returns for one manifest: the generator's
    result, or the flask response of [send_from_directory]. *)
Inductive output : Type :=
| Result (m : manifest)
| Response (body : string).

(** An uploaded file of [connexion.request.files]. *)
Record file_storage : Type := FileStorage {
  filename : string;
  content_type : string;
  contents : string;
}.

(** [FileStorage.__bool__] is [bool(self.filename)]. *)
#[global] Instance truthy_file_storage : Truthy file_storage :=
  λ f, truthy (filename f).

Definition dataframe : Type := list (list string).

Record World : Type := {
  (* flask: app.config, send_from_directory *)
  app_config : gmap string string;
  send_from_directory : string → string → string → result string;
  (* os.path, tempfile *)
  isfile : string → bool;
  dirname : string → string;
  basename : string → string;
  splitext0 : string → string;
  path_join : string → string → string;
  gettempdir : string;
  (* urllib.request.urlopen, copied into a NamedTemporaryFile *)
  urlopen_to_tempfile : string → result string;
  (* connexion.request *)
  request_args : gmap string string;
  request_files : gmap string file_storage;
  file_save : file_storage → string → result unit;
  (* pandas *)
  read_json : string → result dataframe;
  to_csv : dataframe → string → result unit;
  (* schematic *)
  load_config : string → option string → result unit;
  requiresComponent_nodes : string → result (list string);
  get_manifest : generator_call → result manifest;
  MetadataModel_init : string → result unit;
  validateModelManifest :
    string → string → string → option bool →
    result (list (list string) * list (list string));
  submit_metadata_manifest : string → submit_call → result string;
}.

(** ** routes.py *)

Section Routes.

Variable w : World.

(** [config_handler(asset_view)] *)
Definition config_handler (asset_view : option string) : M unit :=
  path_to_config ← getitem (app_config w) "SCHEMATIC_CONFIG";
  if isfile w path_to_config then
    emit (LoadConfig path_to_config asset_view) ;;
    lift (load_config w path_to_config asset_view)
  else
    raise (FileNotFoundError
      ("No configuration file was found at this path: " +:+ path_to_config)).

Definition parse_bool_message : string :=
  "String boolean does not appear to be true or false. Please verify input.".

(** [parse_bool(str_bool)] *)
Definition parse_bool (str_bool : string) : M bool :=
  if startswith (lower str_bool) "t" then ret true
  else if startswith (lower str_bool) "f" then ret false
  else raise (ValueError parse_bool_message).

(** [get_temp_jsonld(schema_url)] *)
Definition get_temp_jsonld (schema_url : string) : M string :=
  lift (urlopen_to_tempfile w schema_url).

(** The pydantic model [ManifestGeneration]. *)
Record ManifestGeneration : Type := {
  schema_url : string;
  access_token : option string;
  asset_view : option string;
  dataset_id : list string;
  data_type : list string;
  title : option string;
  output_format : option string;
  use_annotations : option bool;
}.

Definition _load_config_ (self : ManifestGeneration) : M unit :=
  config_handler (asset_view self).

Definition mismatch_message : string :=
  "There is a mismatch in the number of data_types and dataset_id's that "
  +:+ "submitted. Please check your submission and try again.".

(** [_check_dataset_match_datatype_(self)]: the method takes no
    argument beyond [self]; [args] are the positional arguments a call
    passes after it, and a call that passes any is a TypeError. *)
Definition _check_dataset_match_datatype_
    (self : ManifestGeneration) (args : list (list string)) : M unit :=
  match args with
  | [] =>
      let len_data_types := length (data_type self) in
      let len_dataset_ids := length (dataset_id self) in
      try_except
        (_ ← ret (Nat.eqb len_data_types len_dataset_ids); ret tt)
        (raise (ValueError mismatch_message))
  | _ :: _ => raise TypeError
  end.

(** [_get_manifest_title(self, single_data_type)] *)
Definition _get_manifest_title
    (self : ManifestGeneration) (single_data_type : string) : string :=
  if truthy (title self) then
    default "" (title self) +:+ "." +:+ single_data_type +:+ ".manifest"
  else
    "Example." +:+ single_data_type +:+ ".manifest".

Definition excel_mimetype : string :=
  "application/vnd.openxmlformats-officedocument.spreadsheetml.sheet".

(** What [create_single_manifest] passes to [ManifestGenerator(...)]
    and to [get_manifest(...)]. *)
Definition generator_call_of (self : ManifestGeneration)
    (single_data_type single_dataset_id title : string) : generator_call :=
  {| gc_path_to_json_ld := schema_url self;
     gc_title := title;
     gc_root := single_data_type;
     gc_use_annotations := use_annotations self;
     gc_dataset_id := single_dataset_id;
     gc_output_format := output_format self;
     gc_access_token := access_token self |}.

(** [create_single_manifest(self, single_data_type, single_dataset_id, title)] *)
Definition create_single_manifest (self : ManifestGeneration)
    (single_data_type single_dataset_id title : string) : M output :=
  let c := generator_call_of self single_data_type single_dataset_id title in
  emit (ManifestRequested c) ;;
  result ← lift (get_manifest w c);
  if bool_decide (output_format self = Some "excel") then
    match result with
    | MStr path =>
        let dir_name := dirname w path in
        let file_name := basename w path in
        r ← lift (send_from_directory w dir_name file_name excel_mimetype);
        ret (Response r)
    | MFrame _ => raise TypeError
    end
  else ret (Result result).

Definition warning (msg : string) : M unit := emit (Warning msg).

Definition excel_components_message (t : string) : string :=
  "Currently we do not support returning multiple files as Excel format at once. Only "
  +:+ t +:+ " would get returned. ".

Definition excel_dataset_message (first_dataset_id t : string) : string :=
  "Currently we do not support returning multiple files as Excel format at once. "
  +:+ "Only manifest generated by using dataset id " +:+ first_dataset_id
  +:+ " would get returned with title " +:+ t.

(** [generate_manifest_and_collect_outputs] returns one output for
    excel and a list of outputs otherwise. *)
Inductive outputs : Type :=
| One (o : output)
| Many (l : list output).

(** The [for i, dt in enumerate(data_type_lst)] loop, from position [i]
    on, with the outputs collected so far. *)
Fixpoint collect_outputs (self : ManifestGeneration) (dataset_id : list string)
    (i : nat) (data_type_lst : list string) (all_outputs : list output)
    : M (list output) :=
  match data_type_lst with
  | [] => ret all_outputs
  | dt :: rest =>
      let t := _get_manifest_title self dt in
      output ←
        (if truthy dataset_id then
           single_dataset_id ← index dataset_id i;
           create_single_manifest self dt single_dataset_id t
         else
           create_single_manifest self dt "" t);
      collect_outputs self dataset_id (S i) rest (all_outputs ++ [output])
  end.

(** [generate_manifest_and_collect_outputs(self, data_type_lst, dataset_id)] *)
Definition generate_manifest_and_collect_outputs (self : ManifestGeneration)
    (data_type_lst dataset_id : list string) : M outputs :=
  if bool_decide (output_format self = Some "excel") then
    first ← index data_type_lst 0;
    let t := _get_manifest_title self first in
    (if (1 <? length data_type_lst)%nat
     then warning (excel_components_message t) else ret tt) ;;
    if truthy dataset_id then
      first_id ← index dataset_id 0;
      warning (excel_dataset_message first_id t) ;;
      single_data_type ← index data_type_lst 0;
      single_dataset_id ← index dataset_id 0;
      o ← create_single_manifest self single_data_type single_dataset_id t;
      ret (One o)
    else
      single_data_type ← index data_type_lst 0;
      o ← create_single_manifest self single_data_type "" t;
      ret (One o)
  else
    l ← collect_outputs self dataset_id 0 data_type_lst [];
    ret (Many l).

Definition all_manifests_message : string :=
  "When submitting 'all manifests' as the data_type cannot also submit dataset_id. "
  +:+ "Please check your submission and try again.".

(** The guard of [get_manifests_route] under [if dataset_id:]: the
    block [try: data_type[0] != 'all manifests' except: raise ValueError(...)]. *)
Definition all_manifests_guard (data_type : list string) : M unit :=
  try_except
    (first ← index data_type 0;
     _ ← ret (negb (bool_decide (first = "all manifests")));
     ret tt)
    (raise (ValueError all_manifests_message)).

(** The component list of [get_manifests_route]: the block
    [if data_type[0] == 'all manifests': ... else: components = data_type]. *)
Definition components_of (jsonld : string) (data_type : list string)
    : M (list string) :=
  first ← index data_type 0;
  if bool_decide (first = "all manifests") then
    lift (requiresComponent_nodes w jsonld)
  else ret data_type.

(** [if all_outputs:] on what the collection returned; the truth value
    of a dataframe is a ValueError in pandas. *)
Definition outputs_truth (all_outputs : outputs) : M bool :=
  match all_outputs with
  | Many l => ret (truthy l)
  | One (Response _) => ret true
  | One (Result (MStr s)) => ret (truthy s)
  | One (Result (MFrame _)) =>
      raise (ValueError "The truth value of a DataFrame is ambiguous.")
  end.

(** [ManifestGeneration.get_manifests_route(...)]; a Python function
    that falls off its end returns [None]. *)
Definition get_manifests_route
    (schema_url output_format access_token : string) (use_annotations : bool)
    (dataset_id data_type : list string) (asset_view : option string)
    (title : string) : M (option outputs) :=
  let mg := {| schema_url := schema_url;
               access_token := Some access_token;
               output_format := Some output_format;
               title := Some title;
               use_annotations := Some use_annotations;
               dataset_id := dataset_id;
               data_type := data_type;
               asset_view := asset_view |} in
  _load_config_ mg ;;
  jsonld ← get_temp_jsonld schema_url;
  (if truthy dataset_id then
     _check_dataset_match_datatype_ mg [dataset_id; data_type] ;;
     all_manifests_guard data_type
   else ret tt) ;;
  components ← components_of jsonld data_type;
  all_outputs ← generate_manifest_and_collect_outputs mg components dataset_id;
  b ← outputs_truth all_outputs;
  if (b : bool) then ret (Some all_outputs) else ret None.

(** *** JsonConverter *)

Definition readJson (json_str : option string)
    (manifest_file : option file_storage) : M dataframe :=
  match json_str, manifest_file with
  | Some s, _ =>
      if truthy s then lift (read_json w s)
      else match manifest_file with
           | Some f => if truthy f then lift (read_json w (contents f))
                       else raise UnboundLocalError
           | None => raise UnboundLocalError
           end
  | None, Some f =>
      if truthy f then lift (read_json w (contents f))
      else raise UnboundLocalError
  | None, None => raise UnboundLocalError
  end.

Definition get_file (file_key : string) : M file_storage :=
  getitem (request_files w) file_key.

Definition IsJsonFile (manifest_file : file_storage) : bool :=
  bool_decide (content_type manifest_file = "application/json").

Definition convert_df_to_csv (df : dataframe) (file_name : string) : M string :=
  let temp_dir := gettempdir w in
  let temp_path := path_join w temp_dir file_name in
  lift (to_csv w df temp_path) ;;
  ret temp_path.

Definition convert_json_str_to_csv (json_str : option string)
    (file_name : string) : M string :=
  df ← readJson json_str None;
  convert_df_to_csv df file_name.

(** [save_file(file_key)] *)
Definition save_file (file_key : string) : M string :=
  manifest_file ← getitem (request_files w) file_key;
  let temp_dir := gettempdir w in
  let temp_path := path_join w temp_dir (filename manifest_file) in
  lift (file_save w manifest_file temp_path) ;;
  ret temp_path.

Definition convert_json_file_to_csv (file_key : string) : M string :=
  manifest_file ← get_file file_key;
  if IsJsonFile manifest_file then
    df ← readJson None (Some manifest_file);
    let base := splitext0 w (filename manifest_file) in
    let new_file_name := base +:+ ".csv" in
    convert_df_to_csv df new_file_name
  else
    save_file "file_name".

(** The block [if json_str: ... else: ...] both manifest routes start
    with; [file_name] is the name given to a converted json string. *)
Definition temp_path_of (json_str : option string) (file_name : string)
    : M string :=
  if truthy json_str then convert_json_str_to_csv json_str file_name
  else convert_json_file_to_csv "file_name".

(** [if not x: x = d] *)
Definition or_default {A} `{Truthy A} (x : option A) (d : A) : A :=
  match x with
  | Some a => if truthy a then a else d
  | None => d
  end.

(** [validate_manifest_route(schema_url, data_type, restrict_rules, json_str)] *)
Definition validate_manifest_route (schema_url data_type : string)
    (restrict_rules : option bool) (json_str : option string)
    : M (gmap string (list (list string))) :=
  let restrict_rules :=
    if negb (truthy restrict_rules) then Some false else restrict_rules in
  config_handler None ;;
  let restrict_rules :=
    if negb (truthy restrict_rules) then Some false else restrict_rules in
  temp_path ← temp_path_of json_str "example_json";
  jsonld ← get_temp_jsonld schema_url;
  lift (MetadataModel_init w jsonld) ;;
  emit (Validated temp_path data_type restrict_rules) ;;
  r ← lift (validateModelManifest w jsonld temp_path data_type restrict_rules);
  let '(errors, warnings) := r in
  let res_dict : gmap string (list (list string)) :=
    <["warnings" := warnings]> (<["errors" := errors]> ∅) in
  ret res_dict.

(** [initalize_metadata_model(schema_url)]; the model is known by the
    path of its JSON-LD file. *)
Definition initalize_metadata_model (schema_url : string) : M string :=
  jsonld ← get_temp_jsonld schema_url;
  lift (MetadataModel_init w jsonld) ;;
  ret jsonld.

(** The [use_schema_label] block of [submit_manifest_route]. *)
Definition use_schema_label_of (use_schema_label : string) : M bool :=
  if bool_decide (use_schema_label = "None") then ret true
  else parse_bool use_schema_label.

(** [submit_manifest_route(schema_url, asset_view, manifest_record_type,
    json_str, table_manipulation, data_type)] *)
Definition submit_manifest_route (schema_url : string)
    (asset_view manifest_record_type json_str table_manipulation
     data_type : option string) : M string :=
  config_handler asset_view ;;
  temp_path ← temp_path_of json_str "example_json.csv";
  dataset_id ← getitem (request_args w) "dataset_id";
  restrict_rules_arg ← getitem (request_args w) "restrict_rules";
  restrict_rules ← parse_bool restrict_rules_arg;
  metadata_model ← initalize_metadata_model schema_url;
  access_token ← getitem (request_args w) "access_token";
  use_schema_label_arg ← getitem (request_args w) "use_schema_label";
  use_schema_label ← use_schema_label_of use_schema_label_arg;
  let table_manipulation := or_default table_manipulation "replace" in
  let manifest_record_type :=
    or_default manifest_record_type "table_file_and_entities" in
  let validate_component :=
    if bool_decide (data_type = Some "None") then None else data_type in
  let c := {| sc_path_to_json_ld := schema_url;
              sc_manifest_path := temp_path;
              sc_dataset_id := dataset_id;
              sc_validate_component := validate_component;
              sc_access_token := access_token;
              sc_manifest_record_type := manifest_record_type;
              sc_restrict_rules := restrict_rules;
              sc_table_manipulation := table_manipulation;
              sc_use_schema_label := use_schema_label |} in
  emit (Submitted c) ;;
  lift (submit_metadata_manifest w metadata_model c).

End Routes.


(** ** A sample world

    A configured server whose schema has the components Patient and
    Biospecimen and whose collaborators all succeed. *)

Definition sample_world : World := {|
  app_config := {[ "SCHEMATIC_CONFIG" := "config.yml" ]};
  send_from_directory := λ _ file_name _, Return file_name;
  isfile := λ _, true;
  dirname := λ _, "/tmp";
  basename := λ p, p;
  splitext0 := λ p, p;
  path_join := λ d f, d +:+ "/" +:+ f;
  gettempdir := "/tmp";
  urlopen_to_tempfile := λ _, Return "/tmp/schema.model.jsonld";
  request_args :=
    {[ "dataset_id" := "syn1"; "restrict_rules" := "false";
       "access_token" := "token"; "use_schema_label" := "None" ]};
  request_files := ∅;
  file_save := λ _ _, Return tt;
  read_json := λ _, Return [["Component"]; ["Patient"]];
  to_csv := λ _ _, Return tt;
  load_config := λ _ _, Return tt;
  requiresComponent_nodes := λ _, Return ["Patient"; "Biospecimen"];
  get_manifest := λ c, Return (MStr (gc_title c));
  MetadataModel_init := λ _, Return tt;
  validateModelManifest := λ _ _ _ _, Return ([["row 2"; "bad value"]], []);
  submit_metadata_manifest := λ _ _, Return "syn2";
|}.


(** ** What the environment must grant for a route to reach its own logic *)

(** [config_handler(asset_view)] finds the configuration and loads it. *)
Definition config_ok (w : World) (asset_view : option string) : Prop :=
  ∃ path, app_config w !! "SCHEMATIC_CONFIG" = Some path
          ∧ isfile w path = true
          ∧ load_config w path asset_view = Return tt.

(** The events of a successful [config_handler(asset_view)]. *)
Definition config_events (w : World) (asset_view : option string) : list event :=
  match app_config w !! "SCHEMATIC_CONFIG" with
  | Some path => [LoadConfig path asset_view]
  | None => []
  end.

(** What one manifest creation comes to: the artifact, or the error of
    the generator or of the response. *)
Definition created (w : World) (self : ManifestGeneration)
    (single_data_type single_dataset_id title : string) : result output :=
  (run (create_single_manifest w self single_data_type single_dataset_id
          title)).1.

(** What normalising the uploaded manifest comes to: the path of the
    temporary csv file, or the error of reading or writing it. *)
Definition normalized (w : World) (json_str : option string)
    (file_name : string) : result string :=
  (run (temp_path_of w json_str file_name)).1.

Definition submitted (tr : list event) : list submit_call :=
  omap (λ ev, match ev with Submitted c => Some c | _ => None end) tr.

(** A submission the route made with [use_schema_label = b], with the
    record type and the table manipulation the caller gave, and their
    defaults where the caller gave none (or an empty one). *)
Definition submits_with (out : result string * list event) (w : World)
    (model : string) (b : bool)
    (manifest_record_type table_manipulation : option string) : Prop :=
  ∃ c, submitted out.2 = [c]
     ∧ out.1 = submit_metadata_manifest w model c
     ∧ sc_use_schema_label c = b
     ∧ (truthy manifest_record_type = false →
          sc_manifest_record_type c = "table_file_and_entities")
     ∧ (∀ s, manifest_record_type = Some s → s ≠ "" →
          sc_manifest_record_type c = s)
     ∧ (truthy table_manipulation = false →
          sc_table_manipulation c = "replace")
     ∧ (∀ s, table_manipulation = Some s → s ≠ "" →
          sc_table_manipulation c = s).

(** The dataset id the loop pairs with position [i]: [dataset_id[i]],
    and the default [''] of a fresh template when there are no ids. *)
Definition paired_dataset_id (dataset_id : list string) (i : nat) : string :=
  default "" (dataset_id !! i).

(** Computations that log nothing: the trace they are given comes back
    as it is and does not change the result. *)
Definition silent {A} (m : M A) : Prop := ∀ tr, m tr = ((m []).1, tr).

(** A request on the sample world. *)
Definition sample_request (output_format : string) (title : string)
    (dataset_id data_type : list string) : ManifestGeneration :=
  {| schema_url := "https://example.org/model.jsonld";
     access_token := Some "token";
     asset_view := None;
     dataset_id := dataset_id;
     data_type := data_type;
     title := Some title;
     output_format := Some output_format;
     use_annotations := Some false |}.

(** A computation that only appends to the trace it is given: its
    result and the events it adds do not depend on what was logged
    before. *)
Definition appends {A} (m : M A) : Prop :=
  ∀ tr, m tr = ((m []).1, tr ++ (m []).2).

(** A computation that appends only events that satisfy [Q]. *)
Definition logs {A} (Q : event → Prop) (m : M A) : Prop :=
  appends m ∧ Forall Q (run m).2.

(** ** The storage and population routes *)

(** [try: body except E: handler] for the exceptions [catches] picks. *)
Definition try_except_on {A} (catches : exn → bool) (body : M A)
    (handler : M A) : M A :=
  λ tr, match body tr with
        | (Return a, tr') => (Return a, tr')
        | (Raise e, tr') => if catches e then handler tr' else (Raise e, tr')
        end.

Definition is_KeyError (e : exn) : bool :=
  match e with KeyError _ => true | _ => false end.

(** The asset store and the population of a manifest, as the routes
    below call them. *)
Record Store : Type := {
  (* SynapseStorage(access_token=...) *)
  SynapseStorage_init : string → result unit;
  (* store.getFilesInStorageDataset(datasetId, fileNames, fullpath) *)
  getFilesInStorageDataset :
    string → string → option (list string) → bool →
    result (list (string * string));
  (* store.getDatasetManifest(datasetId, downloadFile=True, newManifestName) *)
  getDatasetManifest : string → string → string → result (gmap string string);
  (* pd.read_csv(path).to_dict(orient="records") *)
  read_csv_records : string → result (list (gmap string string));
  (* metadata_model.populateModelManifest(title, manifestPath, rootNode,
     return_excel) *)
  populateModelManifest :
    string → option string → string → option string → option bool →
    result string;
}.

Section StorageRoutes.

Variable w : World.
Variable st : Store.

(** The block [if file_names and not all(file_names): file_names=None]
    of [get_files_storage_dataset]. *)
Definition storage_file_names (file_names : option (list string))
    : option (list string) :=
  if truthy file_names && negb (forallb truthy (default [] file_names))
  then None else file_names.

(** [get_files_storage_dataset(access_token, asset_view, dataset_id,
    full_path, file_names)] *)
Definition get_files_storage_dataset (access_token : string)
    (asset_view : option string) (dataset_id : string) (full_path : bool)
    (file_names : option (list string)) : M (list (string * string)) :=
  config_handler w asset_view ;;
  lift (SynapseStorage_init st access_token) ;;
  let file_names := storage_file_names file_names in
  lift (getFilesInStorageDataset st access_token dataset_id file_names
          full_path).

(** [return_as_json(manifest_local_file_path)] *)
Definition return_as_json (manifest_local_file_path : string)
    : M (list (gmap string string)) :=
  lift (read_csv_records st manifest_local_file_path).

(** A downloaded manifest: the path of the local file, or its rows. *)
Inductive downloaded : Type :=
| LocalPath (path : string)
| Records (rows : list (gmap string string)).

Definition download_failed_message (dataset_id : string) : string :=
  "Failed to download manifest from dataset: " +:+ dataset_id.

(** [download_dataset_manifest(access_token, dataset_id, asset_view,
    as_json, new_manifest_name)] *)
Definition download_dataset_manifest (access_token dataset_id : string)
    (asset_view : option string) (as_json : bool)
    (new_manifest_name : string) : M downloaded :=
  config_handler w asset_view ;;
  lift (SynapseStorage_init st access_token) ;;
  manifest_data ←
    lift (getDatasetManifest st access_token dataset_id new_manifest_name);
  manifest_local_file_path ←
    try_except_on is_KeyError
      (getitem manifest_data "path")
      (raise (KeyError (download_failed_message dataset_id)));
  if as_json then
    manifest_json ← return_as_json manifest_local_file_path;
    ret (Records manifest_json)
  else
    ret (LocalPath manifest_local_file_path).

(** [populate_manifest_route(schema_url, title, data_type, return_excel)];
    [save_file()] takes the upload named by its default, "csv_file". *)
Definition populate_manifest_route (schema_url : string)
    (title data_type : option string) (return_excel : option bool)
    : M string :=
  config_handler w None ;;
  jsonld ← get_temp_jsonld w schema_url;
  temp_path ← save_file w "csv_file";
  lift (MetadataModel_init w jsonld) ;;
  lift (populateModelManifest st jsonld title temp_path data_type
          return_excel).

End StorageRoutes.

(** ** What the routes ask for and log *)

(** The request of position [i] in the loop. *)
Definition request_of (self : ManifestGeneration) (dataset_id : list string)
    (i : nat) (dt : string) : generator_call :=
  generator_call_of self dt (paired_dataset_id dataset_id i)
    (_get_manifest_title self dt).

(** The events the loop logs when it runs over all of [data_type_lst]
    from position [i]. *)
Definition request_events (self : ManifestGeneration)
    (dataset_id : list string) (i : nat) (data_type_lst : list string)
    : list event :=
  imap (λ j dt, ManifestRequested (request_of self dataset_id (i + j) dt))
    data_type_lst.

(** Every request in the trace satisfies [P]. *)
Definition request_event (P : generator_call → Prop) (ev : event) : Prop :=
  match ev with
  | ManifestRequested c => P c
  | _ => True
  end.

(** The model [get_manifests_route] builds from its arguments. *)
Definition route_request
    (schema_url output_format access_token : string) (use_annotations : bool)
    (dataset_id data_type : list string) (asset_view : option string)
    (title : string) : ManifestGeneration :=
  {| schema_url := schema_url;
     access_token := Some access_token;
     output_format := Some output_format;
     title := Some title;
     use_annotations := Some use_annotations;
     dataset_id := dataset_id;
     data_type := data_type;
     asset_view := asset_view |}.

Definition is_load_config (ev : event) : Prop :=
  match ev with LoadConfig _ _ => True | _ => False end.

(** The restrict_rules the validation route passes on. *)
Definition effective_restrict_rules (restrict_rules : option bool)
    : option bool :=
  if negb (truthy restrict_rules) then Some false else restrict_rules.

(** The dict the validation route returns. *)
Definition res_dict_of (r : list (list string) * list (list string))
    : gmap string (list (list string)) :=
  <["warnings" := r.2]> (<["errors" := r.1]> ∅).

(** What the submission route reads from the request before it
    submits: the four arguments, in the order it reads them, with the
    two booleans parsed. *)
Definition submit_arguments (w : World)
    : result (string * bool * string * bool) :=
  match request_args w !! "dataset_id" with
  | None => Raise (KeyError "dataset_id")
  | Some dataset_id =>
      match request_args w !! "restrict_rules" with
      | None => Raise (KeyError "restrict_rules")
      | Some restrict_rules_arg =>
          match (run (parse_bool restrict_rules_arg)).1 with
          | Raise e => Raise e
          | Return restrict_rules =>
              match request_args w !! "access_token" with
              | None => Raise (KeyError "access_token")
              | Some access_token =>
                  match request_args w !! "use_schema_label" with
                  | None => Raise (KeyError "use_schema_label")
                  | Some use_schema_label_arg =>
                      match (run (use_schema_label_of use_schema_label_arg)).1
                      with
                      | Raise e => Raise e
                      | Return use_schema_label =>
                          Return (dataset_id, restrict_rules, access_token,
                                  use_schema_label)
                      end
                  end
              end
          end
      end
  end.

(** The submission the route makes of what it has read. *)
Definition submission_of (schema_url : string)
    (manifest_record_type table_manipulation data_type : option string)
    (temp_path : string) (args : string * bool * string * bool)
    : submit_call :=
  let '(dataset_id, restrict_rules, access_token, use_schema_label) := args in
  {| sc_path_to_json_ld := schema_url;
     sc_manifest_path := temp_path;
     sc_dataset_id := dataset_id;
     sc_validate_component :=
       if bool_decide (data_type = Some "None") then None else data_type;
     sc_access_token := access_token;
     sc_manifest_record_type :=
       or_default manifest_record_type "table_file_and_entities";
     sc_restrict_rules := restrict_rules;
     sc_table_manipulation := or_default table_manipulation "replace";
     sc_use_schema_label := use_schema_label |}.

(** ** More sample worlds *)

(** The world [w] with another generator. *)
Definition with_get_manifest (w : World)
    (g : generator_call → result manifest) : World :=
  {| app_config := app_config w;
     send_from_directory := send_from_directory w;
     isfile := isfile w;
     dirname := dirname w;
     basename := basename w;
     splitext0 := splitext0 w;
     path_join := path_join w;
     gettempdir := gettempdir w;
     urlopen_to_tempfile := urlopen_to_tempfile w;
     request_args := request_args w;
     request_files := request_files w;
     file_save := file_save w;
     read_json := read_json w;
     to_csv := to_csv w;
     load_config := load_config w;
     requiresComponent_nodes := requiresComponent_nodes w;
     get_manifest := g;
     MetadataModel_init := MetadataModel_init w;
     validateModelManifest := validateModelManifest w;
     submit_metadata_manifest := submit_metadata_manifest w |}.

(** The world [w] with other uploads. *)
Definition with_request_files (w : World)
    (files : gmap string file_storage) : World :=
  {| app_config := app_config w;
     send_from_directory := send_from_directory w;
     isfile := isfile w;
     dirname := dirname w;
     basename := basename w;
     splitext0 := splitext0 w;
     path_join := path_join w;
     gettempdir := gettempdir w;
     urlopen_to_tempfile := urlopen_to_tempfile w;
     request_args := request_args w;
     request_files := files;
     file_save := file_save w;
     read_json := read_json w;
     to_csv := to_csv w;
     load_config := load_config w;
     requiresComponent_nodes := requiresComponent_nodes w;
     get_manifest := get_manifest w;
     MetadataModel_init := MetadataModel_init w;
     validateModelManifest := validateModelManifest w;
     submit_metadata_manifest := submit_metadata_manifest w |}.

(** The sample world whose generator has no Biospecimen template. *)
Definition patient_only_world : World :=
  with_get_manifest sample_world
    (λ c, if bool_decide (gc_root c = "Biospecimen")
          then Raise (CollaboratorError "no template")
          else Return (MStr (gc_title c))).

(** The sample world with a csv upload under both upload names. *)
Definition upload_world : World :=
  with_request_files sample_world
    {[ "file_name" := FileStorage "patients.csv" "text/csv" "Component";
       "csv_file" := FileStorage "template.csv" "text/csv" "Component" ]}.

(** A store with one dataset, whose manifest was downloaded. *)
Definition sample_store : Store := {|
  SynapseStorage_init := λ _, Return tt;
  getFilesInStorageDataset := λ _ _ names _,
    match names with
    | None => Return [("syn10", "a.txt"); ("syn11", "b.txt")]
    | Some _ => Return [("syn10", "a.txt")]
    end;
  getDatasetManifest := λ _ _ _,
    Return {[ "path" := "/tmp/synapse/manifest.csv" ]};
  read_csv_records := λ _, Return [ {[ "Component" := "Patient" ]} ];
  populateModelManifest := λ _ _ path _ _, Return ("sheet of " +:+ path);
|}.

(** * Properties *)

Ltac unfold_monad :=
  unfold run, mbind, M_bind, bind, try_except, getitem, index, lift, emit,
    warning, ret, raise in *.

Section Properties.

Variable w : World.

(** ** The monad steps *)

Lemma config_handler_ok asset_view tr :
  config_ok w asset_view →
  config_handler w asset_view tr = (Return tt, tr ++ config_events w asset_view).
Proof.
  intros (path & Hpath & Hfile & Hload).
  unfold config_handler, config_events. unfold_monad.
  by rewrite Hpath, Hfile, Hload.
Qed.

(** [config_handler] asks for no manifest, whatever happens. *)
Lemma config_handler_requested asset_view tr :
  requested (config_handler w asset_view tr).2 = requested tr.
Proof.
  unfold config_handler. unfold_monad.
  repeat case_match; simplify_eq/=; try done.
  all: unfold requested; rewrite omap_app; simpl; by rewrite app_nil_r.
Qed.

(** ** Titles *)

(** C5: the title of the manifest of component [c] is
    "{title}.{c}.manifest" when a non-empty title was given and
    "Example.{c}.manifest" when the title is empty (or absent); title
    "Cohort1" and component "Patient" give "Cohort1.Patient.manifest". *)
Theorem manifest_title_derivation (self : ManifestGeneration) (c : string) :
  (∀ t, title self = Some t → t ≠ "" →
        _get_manifest_title self c = t +:+ "." +:+ c +:+ ".manifest")
  ∧ (title self = Some "" ∨ title self = None →
        _get_manifest_title self c = "Example." +:+ c +:+ ".manifest")
  ∧ (title self = Some "Cohort1" →
        _get_manifest_title self "Patient" = "Cohort1.Patient.manifest").
Proof.
  unfold _get_manifest_title. split_and!.
  - intros t -> Ht. destruct t; done.
  - by intros [-> | ->].
  - by intros ->.
Qed.

(** ** The request checks of get_manifests_route *)

(** Called as its signature asks, the length check returns for every
    pair of lists: comparing two lengths raises nothing for the bare
    [except] to catch. *)
Lemma check_dataset_match_datatype_returns (self : ManifestGeneration) tr :
  _check_dataset_match_datatype_ self [] tr = (Return tt, tr).
Proof. done. Qed.

(** Called with positional arguments, it is a TypeError. *)
Lemma check_dataset_match_datatype_arity (self : ManifestGeneration) a args tr :
  _check_dataset_match_datatype_ self (a :: args) tr = (Raise TypeError, tr).
Proof. done. Qed.

(** The 'all manifests' guard raises its ValueError for the empty list
    only: the comparison it guards raises nothing. *)
Lemma all_manifests_guard_spec (data_type : list string) tr :
  all_manifests_guard data_type tr =
    (match data_type with
     | [] => Raise (ValueError all_manifests_message)
     | _ :: _ => Return tt
     end, tr).
Proof. by destruct data_type. Qed.

(** The route with a non-empty dataset_id list stops at the length check. *)
Lemma get_manifests_route_dataset_id
    schema_url output_format access_token use_annotations d ds data_type
    asset_view title :
  run (get_manifests_route w schema_url output_format access_token
         use_annotations (d :: ds) data_type asset_view title) =
    match config_handler w asset_view [] with
    | (Return _, tr0) =>
        match urlopen_to_tempfile w schema_url with
        | Return _ => (Raise TypeError, tr0)
        | Raise e => (Raise e, tr0)
        end
    | (Raise e, tr0) => (Raise e, tr0)
    end.
Proof.
  unfold get_manifests_route, _load_config_, run; simpl.
  unfold mbind at 1, M_bind at 1, bind at 1.
  destruct (config_handler w asset_view []) as [[[]|e] tr0]; [|done].
  unfold mbind, M_bind, bind, get_temp_jsonld, lift, raise.
  by destruct (urlopen_to_tempfile w schema_url).
Qed.

(** C9: with a non-empty dataset_id list get_manifests_route raises and
    asks the generator for nothing, whether or not the two lists have
    the same length; once the configuration is loaded and the schema is
    fetched, what it raises is the TypeError of calling
    _check_dataset_match_datatype_ with two positional arguments. *)
Theorem dataset_id_call_is_type_error
    (schema_url output_format access_token : string) (use_annotations : bool)
    (dataset_id data_type : list string) (asset_view : option string)
    (title : string) :
  dataset_id ≠ [] →
  let out := run (get_manifests_route w schema_url output_format access_token
                    use_annotations dataset_id data_type asset_view title) in
  is_raise out.1 = true
  ∧ requested out.2 = []
  ∧ (config_ok w asset_view →
     is_raise (urlopen_to_tempfile w schema_url) = false →
     out = (Raise TypeError, config_events w asset_view)).
Proof.
  intros Hne. destruct dataset_id as [|d ds]; [done|]. clear Hne.
  cbv zeta. rewrite get_manifests_route_dataset_id.
  pose proof (config_handler_requested asset_view []) as Hreq.
  split_and!.
  - destruct (config_handler w asset_view []) as [[[]|e] tr0]; [|done].
    by destruct (urlopen_to_tempfile w schema_url).
  - destruct (config_handler w asset_view []) as [[[]|e] tr0];
      [|exact Hreq].
    destruct (urlopen_to_tempfile w schema_url); exact Hreq.
  - intros Hcfg Hurl. rewrite (config_handler_ok _ _ Hcfg); simpl.
    by destruct (urlopen_to_tempfile w schema_url).
Qed.

(** A computation returns [x] only if its continuation does. *)
Lemma bind_not_return {A B} (m : M A) (k : A → M B) (x : B) tr :
  (∀ a tr', (k a tr').1 ≠ Return x) → (bind m k tr).1 ≠ Return x.
Proof.
  intros Hk. unfold bind. destruct (m tr) as [[a|e] tr']; [apply Hk|done].
Qed.

(** The last two lines of the route turn an empty list into [None]. *)
Lemma return_if_truthy_not_empty (all_outputs : outputs) tr :
  ((b ← outputs_truth all_outputs;
    if (b : bool) then ret (Some all_outputs) else ret None) tr).1
  ≠ Return (Some (Many [])).
Proof.
  destruct all_outputs as [[[s|rows]|body]|[|o l]]; try done.
  by destruct s.
Qed.

(** The route with both lists empty stops at [data_type[0]]. *)
Lemma get_manifests_route_empty
    schema_url output_format access_token use_annotations asset_view title :
  run (get_manifests_route w schema_url output_format access_token
         use_annotations [] [] asset_view title) =
    match config_handler w asset_view [] with
    | (Return _, tr0) =>
        match urlopen_to_tempfile w schema_url with
        | Return _ => (Raise IndexError, tr0)
        | Raise e => (Raise e, tr0)
        end
    | (Raise e, tr0) => (Raise e, tr0)
    end.
Proof.
  unfold get_manifests_route, _load_config_, run; simpl.
  unfold mbind at 1, M_bind at 1, bind at 1.
  destruct (config_handler w asset_view []) as [[[]|e] tr0]; [|done].
  unfold mbind, M_bind, bind, get_temp_jsonld, lift, raise.
  by destruct (urlopen_to_tempfile w schema_url).
Qed.

(** C10: with data_type and dataset_id both empty get_manifests_route
    raises and asks the generator for nothing; once the configuration
    is loaded and the schema is fetched, what it raises is the
    IndexError of [data_type[0]].  And no call of the route, with any
    lists, returns an empty list of artifacts. *)
Theorem empty_data_type_is_index_error
    (schema_url output_format access_token : string) (use_annotations : bool)
    (asset_view : option string) (title : string) :
  let out := run (get_manifests_route w schema_url output_format access_token
                    use_annotations [] [] asset_view title) in
  (is_raise out.1 = true
   ∧ requested out.2 = []
   ∧ (config_ok w asset_view →
      is_raise (urlopen_to_tempfile w schema_url) = false →
      out = (Raise IndexError, config_events w asset_view)))
  ∧ (∀ dataset_id data_type,
       (run (get_manifests_route w schema_url output_format access_token
               use_annotations dataset_id data_type asset_view title)).1
       ≠ Return (Some (Many []))).
Proof.
  cbv zeta. split.
  - rewrite get_manifests_route_empty.
    pose proof (config_handler_requested asset_view []) as Hreq.
    split_and!.
    + destruct (config_handler w asset_view []) as [[[]|e] tr0]; [|done].
      by destruct (urlopen_to_tempfile w schema_url).
    + destruct (config_handler w asset_view []) as [[[]|e] tr0];
        [|exact Hreq].
      destruct (urlopen_to_tempfile w schema_url); exact Hreq.
    + intros Hcfg Hurl. rewrite (config_handler_ok _ _ Hcfg); simpl.
      by destruct (urlopen_to_tempfile w schema_url).
  - intros dataset_id data_type. unfold get_manifests_route, run.
    do 5 (apply bind_not_return; intros).
    apply return_if_truthy_not_empty.
Qed.

(** ** Component expansion *)

Lemma components_of_spec jsonld (data_type : list string) tr :
  components_of w jsonld data_type tr =
    (match data_type with
     | [] => Raise IndexError
     | first :: _ =>
         if bool_decide (first = "all manifests")
         then requiresComponent_nodes w jsonld
         else Return data_type
     end, tr).
Proof.
  destruct data_type as [|first rest]; [done|].
  unfold components_of. unfold_monad. simpl. by case_bool_decide.
Qed.

(** C6, amended: the component list is the list of nodes of the
    requiresComponent graph exactly when the first element of a
    non-empty data_type list is "all manifests", whatever follows it;
    every other non-empty data_type list is passed through unchanged. *)
Theorem component_expansion jsonld (data_type : list string) :
  data_type ≠ [] →
  (head data_type = Some "all manifests" →
     run (components_of w jsonld data_type)
     = (requiresComponent_nodes w jsonld, []))
  ∧ (head data_type ≠ Some "all manifests" →
     run (components_of w jsonld data_type) = (Return data_type, [])).
Proof.
  intros Hne. unfold run. rewrite components_of_spec.
  destruct data_type as [|first rest]; [done|]. simpl.
  split; intros Hhead; case_bool_decide; naive_solver.
Qed.

(** ** Collecting the outputs *)

Lemma create_single_manifest_run (self : ManifestGeneration) dt ds t tr :
  create_single_manifest w self dt ds t tr =
    (created w self dt ds t,
     tr ++ [ManifestRequested (generator_call_of self dt ds t)]).
Proof.
  unfold created, create_single_manifest. unfold_monad. simpl.
  destruct (get_manifest w _) as [[path|rows]|e]; try done.
  - case_bool_decide; [|done].
    by destruct (send_from_directory w _ _ _).
  - by case_bool_decide.
Qed.

(** C3: for excel and more than one component,
    generate_manifest_and_collect_outputs asks the generator for one
    manifest only, that of the first component with the title derived
    from it and with the first dataset id when there is one; what it
    returns is that one artifact, and an error only if that creation
    fails; the warnings it logs (one for the components, one more when
    dataset ids are given) do not stop it. *)
Theorem excel_returns_first_manifest (self : ManifestGeneration)
    (data_type_lst dataset_id : list string) :
  output_format self = Some "excel" →
  (1 < length data_type_lst)%nat →
  ∃ first, head data_type_lst = Some first ∧
  let t := _get_manifest_title self first in
  let single_dataset_id := default "" (head dataset_id) in
  let out := run (generate_manifest_and_collect_outputs w self data_type_lst
                    dataset_id) in
  requested out.2 = [generator_call_of self first single_dataset_id t]
  ∧ out.1 = match created w self first single_dataset_id t with
            | Return o => Return (One o)
            | Raise e => Raise e
            end
  ∧ warnings out.2 =
      excel_components_message t ::
      match dataset_id with
      | [] => []
      | first_id :: _ => [excel_dataset_message first_id t]
      end.
Proof.
  intros Hfmt Hlen.
  destruct data_type_lst as [|first [|second rest]]; simpl in Hlen; try lia.
  exists first. split; [done|]. cbv zeta.
  unfold generate_manifest_and_collect_outputs, run.
  rewrite bool_decide_eq_true_2 by done.
  destruct dataset_id as [|first_id ids]; unfold_monad; simpl;
    rewrite create_single_manifest_run; simpl;
    destruct (created w self first _ _); done.
Qed.

(** For excel a warning is logged only when there is more than one
    component or there are dataset ids. *)
Lemma excel_warnings_only_when (self : ManifestGeneration)
    (data_type_lst dataset_id : list string) :
  output_format self = Some "excel" →
  warnings (run (generate_manifest_and_collect_outputs w self data_type_lst
                   dataset_id)).2 ≠ [] →
  (1 < length data_type_lst)%nat ∨ dataset_id ≠ [].
Proof.
  intros Hfmt. unfold generate_manifest_and_collect_outputs, run.
  rewrite bool_decide_eq_true_2 by done.
  destruct data_type_lst as [|first [|second rest]]; simpl; [done| |lia].
  destruct dataset_id as [|first_id ids]; [|by right].
  unfold_monad; simpl. rewrite create_single_manifest_run; simpl.
  by destruct (created w self first _ _).
Qed.

(** The loop from position [i] on: when the ids reach far enough and
    every creation succeeds, it appends one output per component. *)
Lemma collect_outputs_spec (self : ManifestGeneration) (dataset_id : list string)
    (data_type_lst : list string) :
  ∀ i all_outputs tr,
  dataset_id = [] ∨ (i + length data_type_lst ≤ length dataset_id)%nat →
  (∀ j dt, data_type_lst !! j = Some dt →
     is_raise (created w self dt (paired_dataset_id dataset_id (i + j))
                 (_get_manifest_title self dt)) = false) →
  ∃ l,
    collect_outputs w self dataset_id i data_type_lst all_outputs tr =
      (Return (all_outputs ++ l),
       tr ++ imap (λ j dt, ManifestRequested
                     (generator_call_of self dt
                        (paired_dataset_id dataset_id (i + j))
                        (_get_manifest_title self dt))) data_type_lst)
    ∧ length l = length data_type_lst
    ∧ ∀ j dt, data_type_lst !! j = Some dt →
        ∃ o, l !! j = Some o
             ∧ created w self dt (paired_dataset_id dataset_id (i + j))
                 (_get_manifest_title self dt) = Return o.
Proof.
  induction data_type_lst as [|dt rest IH]; intros i all_outputs tr Hids Hok.
  - exists []. simpl. rewrite !app_nil_r. split_and!; [done..|].
    intros j dt' Hj. by rewrite lookup_nil in Hj.
  - assert (∃ o, created w self dt (paired_dataset_id dataset_id i)
                   (_get_manifest_title self dt) = Return o) as [o Ho].
    { specialize (Hok 0%nat dt eq_refl). rewrite Nat.add_0_r in Hok.
      destruct (created _ _ _ _ _); [by eexists|done]. }
    destruct (IH (S i) (all_outputs ++ [o])
                (tr ++ [ManifestRequested
                          (generator_call_of self dt
                             (paired_dataset_id dataset_id i)
                             (_get_manifest_title self dt))]))
      as (l & Hrun & Hlen & Hl).
    { destruct Hids as [->|Hle]; [by left|right]. simpl in Hle. lia. }
    { intros j dt' Hj. specialize (Hok (S j) dt' Hj).
      by replace (S i + j)%nat with (i + S j)%nat by lia. }
    exists (o :: l). split_and!.
    + simpl. unfold mbind at 1, M_bind at 1, bind at 1.
      assert ((if truthy dataset_id
               then single_dataset_id ← index dataset_id i;
                    create_single_manifest w self dt single_dataset_id
                      (_get_manifest_title self dt)
               else create_single_manifest w self dt ""
                      (_get_manifest_title self dt)) tr
              = (Return o,
                 tr ++ [ManifestRequested
                          (generator_call_of self dt
                             (paired_dataset_id dataset_id i)
                             (_get_manifest_title self dt))])) as ->.
      { unfold paired_dataset_id in *.
        destruct Hids as [->|Hle].
        - simpl. rewrite create_single_manifest_run.
          rewrite lookup_nil in Ho. simpl in Ho. by rewrite Ho.
        - destruct dataset_id as [|d ds]; [simpl in Hle; lia|].
          change (truthy (d :: ds)) with true. cbv iota.
          destruct (lookup_lt_is_Some_2 (d :: ds) i) as [s Hs];
            [simpl in *; lia|].
          unfold mbind, M_bind, bind, index. rewrite Hs. unfold ret.
          rewrite create_single_manifest_run.
          rewrite Hs in Ho. simpl in Ho. rewrite Ho.
          done. }
      rewrite Hrun. rewrite <-!(assoc_L (++)). simpl.
      rewrite Nat.add_0_r. do 3 f_equal.
      apply imap_ext. intros j dt' _. simpl.
      by replace (S (i + j))%nat with (i + S j)%nat by lia.
    + simpl. by rewrite Hlen.
    + intros [|j] dt' Hj; simpl in *.
      * simplify_eq. exists o. by rewrite Nat.add_0_r.
      * destruct (Hl j dt' Hj) as (o' & Ho' & Hc). exists o'.
        split; [done|]. by replace (i + S j)%nat with (S i + j)%nat by lia.
Qed.

Lemma requested_imap {A} (f : nat → A → generator_call) (l : list A) :
  requested (imap (λ j a, ManifestRequested (f j a)) l) = imap f l.
Proof.
  revert f. induction l as [|a l IH]; intros f; [done|].
  simpl. f_equal. apply (IH (f ∘ S)).
Qed.

(** C4: for every output format but excel, google_sheet and dataframe
    among them, on a request whose lists keep their invariant (no
    dataset ids, or as many as there are components) and whose
    manifests are all created, generate_manifest_and_collect_outputs
    returns a list with exactly one artifact per component, in the
    order of the components; the component at position i is created
    with dataset_id[i] when there are dataset ids and as a fresh
    template (dataset id '') when there are none. *)
Theorem list_formats_one_output_per_component (self : ManifestGeneration)
    (data_type_lst dataset_id : list string) :
  output_format self ≠ Some "excel" →
  dataset_id = [] ∨ length dataset_id = length data_type_lst →
  (∀ i dt, data_type_lst !! i = Some dt →
     is_raise (created w self dt (paired_dataset_id dataset_id i)
                 (_get_manifest_title self dt)) = false) →
  let out := run (generate_manifest_and_collect_outputs w self data_type_lst
                    dataset_id) in
  ∃ l, out.1 = Return (Many l)
    ∧ length l = length data_type_lst
    ∧ (∀ i dt, data_type_lst !! i = Some dt →
         ∃ o, l !! i = Some o
              ∧ created w self dt (paired_dataset_id dataset_id i)
                  (_get_manifest_title self dt) = Return o)
    ∧ requested out.2 =
        imap (λ i dt, generator_call_of self dt
                        (paired_dataset_id dataset_id i)
                        (_get_manifest_title self dt)) data_type_lst.
Proof.
  intros Hfmt Hids Hok. cbv zeta.
  unfold generate_manifest_and_collect_outputs, run.
  rewrite bool_decide_eq_false_2 by done.
  destruct (collect_outputs_spec self dataset_id data_type_lst 0 [] [])
    as (l & Hrun & Hlen & Hl); [|done|].
  { destruct Hids as [->|Heq]; [by left|right; simpl; lia]. }
  exists l. unfold mbind, M_bind, bind. rewrite Hrun. simpl.
  split_and!; [done..|].
  apply requested_imap.
Qed.

(** ** Validation and submission *)

Lemma silent_ret {A} (a : A) : silent (ret a).
Proof. done. Qed.

Lemma silent_raise {A} e : silent (@raise A e).
Proof. done. Qed.

Lemma silent_lift {A} (r : result A) : silent (lift r).
Proof. done. Qed.

Lemma silent_getitem {A} (d : gmap string A) k : silent (getitem d k).
Proof. intros tr. unfold getitem. by destruct (d !! k). Qed.

Lemma silent_bind {A B} (m : M A) (k : A → M B) :
  silent m → (∀ a, silent (k a)) → silent (m ≫= k).
Proof.
  intros Hm Hk tr. unfold mbind, M_bind, bind. rewrite (Hm tr).
  pose proof (Hm []) as H0.
  destruct (m []) as [[a|e] tr0]; simpl in *; simplify_eq; [apply Hk|done].
Qed.

Ltac silent_steps :=
  repeat first
    [ apply silent_bind | apply silent_ret | apply silent_raise
    | apply silent_lift | apply silent_getitem | intros ? | case_match ].

Lemma silent_parse_bool str_bool : silent (parse_bool str_bool).
Proof. unfold parse_bool. silent_steps. Qed.

(** Normalising the upload logs nothing. *)
Lemma silent_temp_path_of json_str file_name :
  silent (temp_path_of w json_str file_name).
Proof.
  unfold temp_path_of, convert_json_str_to_csv, convert_json_file_to_csv,
    save_file, convert_df_to_csv, readJson, get_file.
  silent_steps.
Qed.

Lemma temp_path_of_run json_str file_name tr :
  temp_path_of w json_str file_name tr = (normalized w json_str file_name, tr).
Proof. apply silent_temp_path_of. Qed.

Lemma parse_bool_run str_bool tr :
  parse_bool str_bool tr = ((run (parse_bool str_bool)).1, tr).
Proof. apply silent_parse_bool. Qed.

(** C7: once the configuration is loaded, the manifest is normalised,
    the schema is fetched and the model is built, and given that the
    validator hands back its (errors, warnings) pair, the route returns
    the dict with exactly the keys "errors" and "warnings" holding that
    pair, whatever the errors are; the validator is called once, with
    restrict_rules False when the caller gave None or False and with
    the caller's value otherwise. *)
Theorem validation_failures_are_results
    (schema_url data_type : string) (restrict_rules : option bool)
    (json_str : option string) (temp_path jsonld : string) :
  config_ok w None →
  normalized w json_str "example_json" = Return temp_path →
  urlopen_to_tempfile w schema_url = Return jsonld →
  MetadataModel_init w jsonld = Return tt →
  (∀ rr, is_raise (validateModelManifest w jsonld temp_path data_type rr)
         = false) →
  let out := run (validate_manifest_route w schema_url data_type
                    restrict_rules json_str) in
  ∃ rr errors warnings res_dict,
    validateModelManifest w jsonld temp_path data_type rr
      = Return (errors, warnings)
    ∧ out = (Return res_dict,
             config_events w None ++ [Validated temp_path data_type rr])
    ∧ dom res_dict = ({[ "errors"; "warnings" ]} : gset string)
    ∧ res_dict !! "errors" = Some errors
    ∧ res_dict !! "warnings" = Some warnings
    ∧ (truthy restrict_rules = false → rr = Some false)
    ∧ (truthy restrict_rules = true → rr = restrict_rules).
Proof.
  intros Hcfg Hnorm Hurl Hmodel Hval. cbv zeta.
  set (rr := if negb (truthy restrict_rules) then Some false
             else restrict_rules).
  assert ((if negb (truthy rr) then Some false else rr) = rr) as Hrr.
  { subst rr. by destruct restrict_rules as [[]|]. }
  specialize (Hval rr).
  destruct (validateModelManifest w jsonld temp_path data_type rr)
    as [[errors warnings]|e] eqn:Hv; [|done].
  exists rr, errors, warnings,
    (<["warnings" := warnings]> (<["errors" := errors]> ∅)).
  split_and!.
  - done.
  - unfold validate_manifest_route, run. fold rr. rewrite Hrr.
    unfold mbind at 1, M_bind at 1, bind at 1.
    rewrite (config_handler_ok _ _ Hcfg).
    unfold mbind at 1, M_bind at 1, bind at 1.
    rewrite temp_path_of_run, Hnorm.
    unfold get_temp_jsonld. unfold_monad. by rewrite Hurl, Hmodel, Hv.
  - rewrite !dom_insert_L, dom_empty_L. set_solver.
  - by rewrite lookup_insert_ne, lookup_insert_eq.
  - by rewrite lookup_insert_eq.
  - subst rr. by intros ->.
  - subst rr. by intros ->.
Qed.

Lemma or_default_falsy (x : option string) d :
  truthy x = false → or_default x d = d.
Proof. by destruct x as [[|]|]. Qed.

Lemma or_default_given (x : option string) s d :
  x = Some s → s ≠ "" → or_default x d = s.
Proof. intros -> Hs. by destruct s. Qed.

(** [parse_bool] by the first letter of the lowered string. *)
Lemma parse_bool_spec str_bool :
  (run (parse_bool str_bool)).1 =
    if startswith (lower str_bool) "t" then Return true
    else if startswith (lower str_bool) "f" then Return false
    else Raise (ValueError parse_bool_message).
Proof. unfold parse_bool, run. by repeat case_match. Qed.

Lemma use_schema_label_of_run use_schema_label tr :
  use_schema_label_of use_schema_label tr =
    (if bool_decide (use_schema_label = "None") then Return true
     else (run (parse_bool use_schema_label)).1, tr).
Proof.
  unfold use_schema_label_of. case_bool_decide; [done|apply parse_bool_run].
Qed.

(** The route up to the submission, once everything before the
    [use_schema_label] block went well. *)
Lemma submit_manifest_route_run
    schema_url asset_view manifest_record_type json_str table_manipulation
    data_type temp_path dataset_id restrict_rules_arg restrict_rules jsonld
    access_token use_schema_label_arg :
  config_ok w asset_view →
  normalized w json_str "example_json.csv" = Return temp_path →
  request_args w !! "dataset_id" = Some dataset_id →
  request_args w !! "restrict_rules" = Some restrict_rules_arg →
  (run (parse_bool restrict_rules_arg)).1 = Return restrict_rules →
  urlopen_to_tempfile w schema_url = Return jsonld →
  MetadataModel_init w jsonld = Return tt →
  request_args w !! "access_token" = Some access_token →
  request_args w !! "use_schema_label" = Some use_schema_label_arg →
  run (submit_manifest_route w schema_url asset_view manifest_record_type
         json_str table_manipulation data_type) =
    match (if bool_decide (use_schema_label_arg = "None") then Return true
           else (run (parse_bool use_schema_label_arg)).1) with
    | Return b =>
        let c :=
          {| sc_path_to_json_ld := schema_url;
             sc_manifest_path := temp_path;
             sc_dataset_id := dataset_id;
             sc_validate_component :=
               if bool_decide (data_type = Some "None") then None
               else data_type;
             sc_access_token := access_token;
             sc_manifest_record_type :=
               or_default manifest_record_type "table_file_and_entities";
             sc_restrict_rules := restrict_rules;
             sc_table_manipulation := or_default table_manipulation "replace";
             sc_use_schema_label := b |} in
        (submit_metadata_manifest w jsonld c,
         config_events w asset_view ++ [Submitted c])
    | Raise e => (Raise e, config_events w asset_view)
    end.
Proof.
  intros Hcfg Hnorm Hid Hrr Hparse Hurl Hmodel Htoken Hlabel.
  unfold submit_manifest_route, run.
  unfold mbind at 1, M_bind at 1, bind at 1.
  rewrite (config_handler_ok _ _ Hcfg).
  unfold mbind at 1, M_bind at 1, bind at 1.
  rewrite temp_path_of_run, Hnorm.
  unfold mbind at 1, M_bind at 1, bind at 1, getitem at 1. rewrite Hid.
  unfold mbind at 1, M_bind at 1, bind at 1, getitem at 1. rewrite Hrr.
  unfold ret at 1 2.
  unfold mbind at 1, M_bind at 1, bind at 1.
  rewrite parse_bool_run, Hparse.
  unfold mbind at 1, M_bind at 1, bind at 1.
  unfold initalize_metadata_model, get_temp_jsonld.
  unfold mbind at 1 2, M_bind at 1 2, bind at 1 2, lift at 1 2.
  rewrite Hurl, Hmodel. unfold ret at 1.
  unfold mbind at 1, M_bind at 1, bind at 1, getitem at 1. rewrite Htoken.
  unfold mbind at 1, M_bind at 1, bind at 1, getitem at 1. rewrite Hlabel.
  unfold ret at 1 2.
  unfold mbind at 1, M_bind at 1, bind at 1.
  rewrite use_schema_label_of_run.
  destruct (if bool_decide (use_schema_label_arg = "None") then _ else _);
    done.
Qed.

Lemma submitted_config_events asset_view :
  submitted (config_events w asset_view) = [].
Proof. unfold config_events. by case_match. Qed.

(** C8: once the route has its manifest, its request arguments and its
    model, the submission it makes carries manifest_record_type
    "table_file_and_entities" and table_manipulation "replace" where
    the caller gave none (None or empty) and the caller's values
    otherwise; use_schema_label is True for the literal "None", and for
    every other string it is the boolean of its lowered first letter,
    't' or 'f'; a string that is not "None" and starts with neither
    raises the ValueError of parse_bool and nothing is submitted. *)
Theorem submit_defaults_and_schema_label
    (schema_url : string)
    (asset_view manifest_record_type json_str table_manipulation
     data_type : option string)
    (temp_path dataset_id restrict_rules_arg : string) (restrict_rules : bool)
    (jsonld access_token use_schema_label_arg : string) :
  config_ok w asset_view →
  normalized w json_str "example_json.csv" = Return temp_path →
  request_args w !! "dataset_id" = Some dataset_id →
  request_args w !! "restrict_rules" = Some restrict_rules_arg →
  (run (parse_bool restrict_rules_arg)).1 = Return restrict_rules →
  urlopen_to_tempfile w schema_url = Return jsonld →
  MetadataModel_init w jsonld = Return tt →
  request_args w !! "access_token" = Some access_token →
  request_args w !! "use_schema_label" = Some use_schema_label_arg →
  let out := run (submit_manifest_route w schema_url asset_view
                    manifest_record_type json_str table_manipulation
                    data_type) in
  let starts c := startswith (lower use_schema_label_arg) c in
  (use_schema_label_arg = "None" →
     submits_with out w jsonld true manifest_record_type table_manipulation)
  ∧ (use_schema_label_arg ≠ "None" → starts "t" = true →
     submits_with out w jsonld true manifest_record_type table_manipulation)
  ∧ (use_schema_label_arg ≠ "None" → starts "t" = false → starts "f" = true →
     submits_with out w jsonld false manifest_record_type table_manipulation)
  ∧ (use_schema_label_arg ≠ "None" → starts "t" = false → starts "f" = false →
     out.1 = Raise (ValueError parse_bool_message) ∧ submitted out.2 = []).
Proof.
  intros Hcfg Hnorm Hid Hrr Hparse Hurl Hmodel Htoken Hlabel. cbv zeta.
  rewrite (submit_manifest_route_run _ _ manifest_record_type _
             table_manipulation data_type _ _ _ _ _ _ _
             Hcfg Hnorm Hid Hrr Hparse Hurl Hmodel Htoken Hlabel).
  rewrite parse_bool_spec.
  assert (∀ b c, sc_use_schema_label c = b →
            sc_manifest_record_type c
              = or_default manifest_record_type "table_file_and_entities" →
            sc_table_manipulation c = or_default table_manipulation "replace" →
            submits_with
              (submit_metadata_manifest w jsonld c,
               config_events w asset_view ++ [Submitted c])
              w jsonld b manifest_record_type table_manipulation) as Hsub.
  { intros b c Hb Hrec Htab. exists c. simpl. split_and!; try done.
    - unfold submitted. rewrite omap_app.
      fold (submitted (config_events w asset_view)).
      by rewrite submitted_config_events.
    - intros Hf. by rewrite Hrec, or_default_falsy.
    - intros s Hs Hne. by rewrite Hrec, (or_default_given _ s).
    - intros Hf. by rewrite Htab, or_default_falsy.
    - intros s Hs Hne. by rewrite Htab, (or_default_given _ s). }
  split_and!.
  - intros ->. rewrite bool_decide_eq_true_2 by done. by apply Hsub.
  - intros Hne ->. rewrite bool_decide_eq_false_2 by done. by apply Hsub.
  - intros Hne -> ->. rewrite bool_decide_eq_false_2 by done. by apply Hsub.
  - intros Hne -> ->. rewrite bool_decide_eq_false_2 by done. simpl.
    split; [done|apply submitted_config_events].
Qed.

End Properties.

(** * The routes on the sample world *)

(** [parse_bool] on a few strings; "None" itself does not parse. *)
Example parse_bool_examples :
  (run (parse_bool "True")).1 = Return true
  ∧ (run (parse_bool "tRUE")).1 = Return true
  ∧ (run (parse_bool "FALSE")).1 = Return false
  ∧ (run (parse_bool "f")).1 = Return false
  ∧ (run (parse_bool "None")).1 = Raise (ValueError parse_bool_message)
  ∧ (run (parse_bool "")).1 = Raise (ValueError parse_bool_message).
Proof. by vm_compute. Qed.

(** One component, no dataset id, a google sheet and no title: a list
    of one artifact, titled "Example.Patient.manifest". *)
Example single_patient_sheet :
  run (get_manifests_route sample_world "https://example.org/model.jsonld"
         "google_sheet" "" false [] ["Patient"] None "")
  = (Return (Some (Many [Result (MStr "Example.Patient.manifest")])),
     [LoadConfig "config.yml" None;
      ManifestRequested
        {| gc_path_to_json_ld := "https://example.org/model.jsonld";
           gc_title := "Example.Patient.manifest";
           gc_root := "Patient";
           gc_use_annotations := Some false;
           gc_dataset_id := "";
           gc_output_format := Some "google_sheet";
           gc_access_token := Some "" |}]).
Proof. by vm_compute. Qed.

(** "all manifests" alone, without dataset ids: one artifact per node
    of the requirement graph. *)
Example all_manifests_sheets :
  (run (get_manifests_route sample_world "https://example.org/model.jsonld"
          "google_sheet" "" false [] ["all manifests"] None "Cohort1")).1
  = Return (Some (Many [Result (MStr "Cohort1.Patient.manifest");
                        Result (MStr "Cohort1.Biospecimen.manifest")])).
Proof. by vm_compute. Qed.

(** C1: on the code as it is, a request with one dataset id and two
    data types does not raise the ValueError of the length check: the
    route raises the TypeError of the call with two positional
    arguments, and the check itself, called as its signature asks,
    returns for lists of different lengths. *)
Theorem length_mismatch_raises_type_error :
  run (get_manifests_route sample_world "https://example.org/model.jsonld"
         "dataframe" "" false ["syn1"] ["Patient"; "Biospecimen"] None "")
    = (Raise TypeError, [LoadConfig "config.yml" None])
  ∧ run (_check_dataset_match_datatype_
           (sample_request "dataframe" "" ["syn1"] ["Patient"; "Biospecimen"])
           [])
    = (Return tt, []).
Proof. split; by vm_compute. Qed.

(** C2: on the code as it is, a request for "all manifests" with a
    dataset id does not raise the ValueError of the guard: the route
    raises the TypeError of the length check's call before it reaches
    the guard, and the guard itself returns for ["all manifests"]. *)
Theorem all_manifests_with_dataset_id_raises_type_error :
  run (get_manifests_route sample_world "https://example.org/model.jsonld"
         "dataframe" "" false ["syn1"] ["all manifests"] None "")
    = (Raise TypeError, [LoadConfig "config.yml" None])
  ∧ run (all_manifests_guard ["all manifests"]) = (Return tt, []).
Proof. split; by vm_compute. Qed.

Lemma excel_returns_first_manifest_witness :
  ∃ first, head ["Patient"; "Biospecimen"] = Some first ∧
  let self := sample_request "excel" "Cohort1" ["syn1"; "syn2"]
                ["Patient"; "Biospecimen"] in
  let t := _get_manifest_title self first in
  let single_dataset_id := default "" (head ["syn1"; "syn2"]) in
  let out := run (generate_manifest_and_collect_outputs sample_world self
                    ["Patient"; "Biospecimen"] ["syn1"; "syn2"]) in
  requested out.2 = [generator_call_of self first single_dataset_id t]
  ∧ out.1 = match created sample_world self first single_dataset_id t with
            | Return o => Return (One o)
            | Raise e => Raise e
            end
  ∧ warnings out.2 =
      [excel_components_message t; excel_dataset_message "syn1" t].
Proof.
  apply (excel_returns_first_manifest sample_world
           (sample_request "excel" "Cohort1" ["syn1"; "syn2"]
              ["Patient"; "Biospecimen"])
           ["Patient"; "Biospecimen"] ["syn1"; "syn2"]).
  - reflexivity.
  - simpl. lia.
Defined.

Lemma list_formats_one_output_per_component_witness :
  let self := sample_request "google_sheet" "" ["syn1"; "syn2"]
                ["Patient"; "Biospecimen"] in
  let out := run (generate_manifest_and_collect_outputs sample_world self
                    ["Patient"; "Biospecimen"] ["syn1"; "syn2"]) in
  ∃ l, out.1 = Return (Many l)
    ∧ length l = 2%nat
    ∧ (∀ i dt, ["Patient"; "Biospecimen"] !! i = Some dt →
         ∃ o, l !! i = Some o
              ∧ created sample_world self dt
                  (paired_dataset_id ["syn1"; "syn2"] i)
                  (_get_manifest_title self dt) = Return o)
    ∧ requested out.2 =
        [generator_call_of self "Patient" "syn1" "Example.Patient.manifest";
         generator_call_of self "Biospecimen" "syn2"
           "Example.Biospecimen.manifest"].
Proof.
  apply (list_formats_one_output_per_component sample_world
           (sample_request "google_sheet" "" ["syn1"; "syn2"]
              ["Patient"; "Biospecimen"])
           ["Patient"; "Biospecimen"] ["syn1"; "syn2"]).
  - discriminate.
  - right. reflexivity.
  - intros i dt Hi. reflexivity.
Defined.

(** C6 as stated fails: a data_type list that starts with "all
    manifests" and goes on is not passed through, it is expanded. *)
Lemma all_manifests_with_more_is_expanded :
  ["all manifests"; "Patient"] ≠ ["all manifests"]
  ∧ run (components_of sample_world "/tmp/schema.model.jsonld"
           ["all manifests"; "Patient"])
    = (Return ["Patient"; "Biospecimen"], [])
  ∧ (run (components_of sample_world "/tmp/schema.model.jsonld"
            ["all manifests"; "Patient"])).1
    ≠ Return ["all manifests"; "Patient"].
Proof. split_and!; by vm_compute. Qed.

Lemma component_expansion_witness :
  (head ["all manifests"; "Patient"] = Some "all manifests" →
     run (components_of sample_world "/tmp/schema.model.jsonld"
            ["all manifests"; "Patient"])
     = (requiresComponent_nodes sample_world "/tmp/schema.model.jsonld", []))
  ∧ (head ["all manifests"; "Patient"] ≠ Some "all manifests" →
     run (components_of sample_world "/tmp/schema.model.jsonld"
            ["all manifests"; "Patient"])
     = (Return ["all manifests"; "Patient"], [])).
Proof.
  apply (component_expansion sample_world "/tmp/schema.model.jsonld"
           ["all manifests"; "Patient"]).
  discriminate.
Defined.

Lemma dataset_id_call_is_type_error_witness :
  ["syn1"] ≠ ([] : list string)
  ∧ let out := run (get_manifests_route sample_world
                      "https://example.org/model.jsonld" "dataframe" "" false
                      ["syn1"] ["Patient"] None "") in
    is_raise out.1 = true
    ∧ requested out.2 = []
    ∧ (config_ok sample_world None →
       is_raise (urlopen_to_tempfile sample_world
                   "https://example.org/model.jsonld") = false →
       out = (Raise TypeError, config_events sample_world None)).
Proof.
  split; [discriminate|].
  apply (dataset_id_call_is_type_error sample_world
           "https://example.org/model.jsonld" "dataframe" "" false
           ["syn1"] ["Patient"] None "").
  discriminate.
Defined.

Lemma validation_failures_are_results_witness :
  let out := run (validate_manifest_route sample_world
                    "https://example.org/model.jsonld" "Patient" None
                    (Some "[{}]")) in
  ∃ rr errors warnings res_dict,
    validateModelManifest sample_world "/tmp/schema.model.jsonld"
      "/tmp/example_json" "Patient" rr = Return (errors, warnings)
    ∧ out = (Return res_dict,
             config_events sample_world None
             ++ [Validated "/tmp/example_json" "Patient" rr])
    ∧ dom res_dict = ({[ "errors"; "warnings" ]} : gset string)
    ∧ res_dict !! "errors" = Some errors
    ∧ res_dict !! "warnings" = Some warnings
    ∧ (truthy (None : option bool) = false → rr = Some false)
    ∧ (truthy (None : option bool) = true → rr = None).
Proof.
  apply (validation_failures_are_results sample_world
           "https://example.org/model.jsonld" "Patient" None (Some "[{}]")
           "/tmp/example_json" "/tmp/schema.model.jsonld").
  - exists "config.yml". vm_compute. repeat split; reflexivity.
  - vm_compute. reflexivity.
  - reflexivity.
  - reflexivity.
  - intros rr. reflexivity.
Defined.

Lemma submit_defaults_and_schema_label_witness :
  let out := run (submit_manifest_route sample_world
                    "https://example.org/model.jsonld" None None
                    (Some "[{}]") (Some "") None) in
  let starts c := startswith (lower "None") c in
  ("None" = "None" →
     submits_with out sample_world "/tmp/schema.model.jsonld" true None
       (Some ""))
  ∧ ("None" ≠ "None" → starts "t" = true →
     submits_with out sample_world "/tmp/schema.model.jsonld" true None
       (Some ""))
  ∧ ("None" ≠ "None" → starts "t" = false → starts "f" = true →
     submits_with out sample_world "/tmp/schema.model.jsonld" false None
       (Some ""))
  ∧ ("None" ≠ "None" → starts "t" = false → starts "f" = false →
     out.1 = Raise (ValueError parse_bool_message) ∧ submitted out.2 = []).
Proof.
  apply (submit_defaults_and_schema_label sample_world
           "https://example.org/model.jsonld" None None (Some "[{}]")
           (Some "") None "/tmp/example_json.csv" "syn1" "false" false
           "/tmp/schema.model.jsonld" "token" "None").
  - exists "config.yml". vm_compute. repeat split; reflexivity.
  - vm_compute. reflexivity.
  - vm_compute. reflexivity.
  - vm_compute. reflexivity.
  - vm_compute. reflexivity.
  - reflexivity.
  - reflexivity.
  - vm_compute. reflexivity.
  - vm_compute. reflexivity.
Defined.

(** * Further properties *)

(** ** Strings *)

Lemma list_ascii_of_string_app (a b : string) :
  list_ascii_of_string (a +:+ b)
  = list_ascii_of_string a ++ list_ascii_of_string b.
Proof. induction a as [|c a IH]; simpl; [done|by rewrite IH]. Qed.

Lemma string_app_inv_tail (a b s : string) : a +:+ s = b +:+ s → a = b.
Proof.
  intros H. apply (f_equal list_ascii_of_string) in H.
  rewrite !list_ascii_of_string_app in H. apply app_inv_tail in H.
  apply (f_equal string_of_list_ascii) in H.
  by rewrite !string_of_list_ascii_of_string in H.
Qed.

Lemma startswith_letter (s : string) (p : ascii) :
  startswith s (String p "") =
    match s with
    | String c _ => bool_decide (c = p)
    | EmptyString => false
    end.
Proof.
  destruct s as [|c s]; [done|]. unfold startswith. simpl.
  destruct (ascii_dec p c) as [->|Hne].
  - rewrite bool_decide_eq_true_2 by done. by destruct s.
  - by rewrite bool_decide_eq_false_2 by congruence.
Qed.

(** X1: parse_bool looks at the first character only: True for 't' or
    'T', False for 'f' or 'F', whatever follows; every other string,
    the empty one too, is the ValueError. *)
Theorem parse_bool_first_letter (str_bool : string) :
  (run (parse_bool str_bool)).1 =
    match str_bool with
    | String ("t" | "T")%char _ => Return true
    | String ("f" | "F")%char _ => Return false
    | _ => Raise (ValueError parse_bool_message)
    end.
Proof.
  destruct str_bool as [|c rest]; [done|].
  unfold parse_bool, run. simpl lower. rewrite !startswith_letter.
  destruct c as [[] [] [] [] [] [] [] []]; reflexivity.
Qed.

Section Handlers.

Variable w : World.

(** X2: config_handler returns exactly when the configuration is
    there to load: the application names a path, the path is a file and
    loading it succeeds.  Without the path it is a KeyError, and a path
    that is no file is a FileNotFoundError that names it; in both cases
    nothing was loaded. *)
Theorem config_handler_returns_iff (asset_view : option string) :
  ((run (config_handler w asset_view)).1 = Return tt ↔ config_ok w asset_view)
  ∧ (app_config w !! "SCHEMATIC_CONFIG" = None →
     run (config_handler w asset_view)
     = (Raise (KeyError "SCHEMATIC_CONFIG"), []))
  ∧ (∀ path, app_config w !! "SCHEMATIC_CONFIG" = Some path →
       isfile w path = false →
       run (config_handler w asset_view)
       = (Raise (FileNotFoundError
                   ("No configuration file was found at this path: "
                    +:+ path)), [])).
Proof.
  unfold config_handler, config_ok. unfold_monad. split_and!.
  - split.
    + destruct (app_config w !! "SCHEMATIC_CONFIG") as [path|] eqn:Hp;
        [|done].
      destruct (isfile w path) eqn:Hf; [|done]. simpl.
      destruct (load_config w path asset_view) as [[]|e] eqn:Hl; [|done].
      by exists path.
    + intros (path & -> & -> & Hl). simpl. by rewrite Hl.
  - by intros ->.
  - by intros path -> ->.
Qed.

(** X3: within one request distinct components get distinct titles. *)
Theorem manifest_title_injective (self : ManifestGeneration) (c1 c2 : string) :
  c1 ≠ c2 → _get_manifest_title self c1 ≠ _get_manifest_title self c2.
Proof.
  intros Hne Heq. apply Hne. unfold _get_manifest_title in Heq.
  destruct (truthy (title self)).
  - apply (inj (String.app _)) in Heq. apply (inj (String.app _)) in Heq.
    by apply string_app_inv_tail in Heq.
  - apply (inj (String.app _)) in Heq.
    by apply string_app_inv_tail in Heq.
Qed.

End Handlers.

(** ** How the computations extend the trace *)

Lemma silent_appends {A} (m : M A) : silent m → appends m.
Proof.
  intros Hm tr. rewrite (Hm tr). pose proof (Hm []) as H0.
  destruct (m []) as [r tr0]; simpl in *. simplify_eq. by rewrite app_nil_r.
Qed.

Lemma appends_ret {A} (a : A) : appends (ret a).
Proof. intros tr. unfold ret. simpl. by rewrite app_nil_r. Qed.

Lemma appends_raise {A} e : appends (@raise A e).
Proof. intros tr. unfold raise. simpl. by rewrite app_nil_r. Qed.

Lemma appends_lift {A} (r : result A) : appends (lift r).
Proof. intros tr. unfold lift. simpl. by rewrite app_nil_r. Qed.

Lemma appends_emit ev : appends (emit ev).
Proof. by intros tr. Qed.

Lemma appends_bind {A B} (m : M A) (k : A → M B) :
  appends m → (∀ a, appends (k a)) → appends (m ≫= k).
Proof.
  intros Hm Hk tr. unfold mbind, M_bind, bind. rewrite (Hm tr).
  destruct (m []) as [[a|e] tr0]; simpl; [|done].
  rewrite (Hk a (tr ++ tr0)), (Hk a tr0). simpl. by rewrite (assoc_L (++)).
Qed.

(** The events of [m ≫= k] are those of [m], then those of [k]. *)
Lemma run_bind {A B} (m : M A) (k : A → M B) :
  appends m → (∀ a, appends (k a)) →
  run (m ≫= k) =
    match (run m).1 with
    | Return a => ((run (k a)).1, (run m).2 ++ (run (k a)).2)
    | Raise e => (Raise e, (run m).2)
    end.
Proof.
  intros Hm Hk. unfold run, mbind, M_bind, bind.
  destruct (m []) as [[a|e] tr0]; simpl; [|done]. apply Hk.
Qed.

Lemma logs_bind {A B} Q (m : M A) (k : A → M B) :
  logs Q m → (∀ a, logs Q (k a)) → logs Q (m ≫= k).
Proof.
  intros [Hm HQm] Hk. split.
  - apply appends_bind; [done|]. intros a. apply Hk.
  - rewrite run_bind; [|done|intros a; apply Hk].
    destruct (run m).1 as [a|e]; simpl; [|done].
    apply Forall_app. split; [done|apply Hk].
Qed.

Lemma logs_silent {A} Q (m : M A) : silent m → logs Q m.
Proof.
  intros Hm. split; [by apply silent_appends|].
  unfold run. pose proof (Hm []) as H0.
  destruct (m []) as [r tr0]; simpl in *. by simplify_eq.
Qed.

Lemma logs_emit (Q : event → Prop) ev : Q ev → logs Q (emit ev).
Proof. intros HQ. split; [apply appends_emit|]. by constructor. Qed.

Lemma logs_weaken {A} (Q Q' : event → Prop) (m : M A) :
  (∀ ev, Q ev → Q' ev) → logs Q m → logs Q' m.
Proof. intros HQ [Hm HF]. split; [done|]. by eapply Forall_impl. Qed.

Section Collecting.

Variable w : World.

Lemma appends_create_single_manifest (self : ManifestGeneration) dt ds t :
  appends (create_single_manifest w self dt ds t).
Proof. intros tr. by rewrite !create_single_manifest_run. Qed.

(** One turn of the loop. *)
Lemma collect_outputs_cons (self : ManifestGeneration) dataset_id i dt rest
    all_outputs tr :
  collect_outputs w self dataset_id i (dt :: rest) all_outputs tr =
    match dataset_id, dataset_id !! i with
    | _ :: _, None => (Raise IndexError, tr)
    | _, _ =>
        match created w self dt (paired_dataset_id dataset_id i)
                (_get_manifest_title self dt) with
        | Return o =>
            collect_outputs w self dataset_id (S i) rest (all_outputs ++ [o])
              (tr ++ [ManifestRequested (request_of self dataset_id i dt)])
        | Raise e =>
            (Raise e,
             tr ++ [ManifestRequested (request_of self dataset_id i dt)])
        end
    end.
Proof.
  unfold request_of, paired_dataset_id. simpl.
  unfold mbind at 1, M_bind at 1, bind at 1.
  destruct dataset_id as [|d ds]; simpl.
  - rewrite create_single_manifest_run. by destruct (created _ _ _ _ _).
  - unfold mbind, M_bind, bind, index.
    destruct ((d :: ds) !! i) as [s|]; [|done]. unfold ret. simpl.
    rewrite create_single_manifest_run. by destruct (created _ _ _ _ _).
Qed.

Lemma request_events_cons self dataset_id i dt rest :
  request_events self dataset_id i (dt :: rest) =
    ManifestRequested (request_of self dataset_id i dt)
    :: request_events self dataset_id (S i) rest.
Proof.
  unfold request_events. simpl. rewrite Nat.add_0_r. f_equal.
  apply imap_ext. intros j dt' _. simpl. f_equal. f_equal. lia.
Qed.

Lemma requested_request_events self dataset_id i dts :
  requested (request_events self dataset_id i dts) =
    imap (λ j dt, request_of self dataset_id (i + j) dt) dts.
Proof. apply requested_imap. Qed.

(** The loop logs a prefix of the requests of its components, in
    order, and nothing else; it returns only after all of them. *)
Lemma collect_outputs_prefix (self : ManifestGeneration) dataset_id dts :
  ∀ i all_outputs tr,
  ∃ n, (n ≤ length dts)%nat
     ∧ (collect_outputs w self dataset_id i dts all_outputs tr).2
       = tr ++ take n (request_events self dataset_id i dts)
     ∧ (is_raise (collect_outputs w self dataset_id i dts all_outputs tr).1
        = false → n = length dts).
Proof.
  induction dts as [|dt rest IH]; intros i all_outputs tr.
  - exists 0%nat. simpl. by rewrite app_nil_r.
  - rewrite collect_outputs_cons, request_events_cons.
    assert (∃ n, (n ≤ length (dt :: rest))%nat ∧
      (match created w self dt (paired_dataset_id dataset_id i)
               (_get_manifest_title self dt) with
       | Return o =>
           collect_outputs w self dataset_id (S i) rest (all_outputs ++ [o])
             (tr ++ [ManifestRequested (request_of self dataset_id i dt)])
       | Raise e =>
           (Raise e,
            tr ++ [ManifestRequested (request_of self dataset_id i dt)])
       end).2
      = tr ++ take n (ManifestRequested (request_of self dataset_id i dt)
                      :: request_events self dataset_id (S i) rest)
      ∧ (is_raise
           (match created w self dt (paired_dataset_id dataset_id i)
                    (_get_manifest_title self dt) with
            | Return o =>
                collect_outputs w self dataset_id (S i) rest
                  (all_outputs ++ [o])
                  (tr ++ [ManifestRequested (request_of self dataset_id i dt)])
            | Raise e =>
                (Raise e,
                 tr ++ [ManifestRequested (request_of self dataset_id i dt)])
            end).1 = false → n = length (dt :: rest))) as Hgo.
    { destruct (created w self dt _ _) as [o|e].
      - destruct (IH (S i) (all_outputs ++ [o])
                    (tr ++ [ManifestRequested
                              (request_of self dataset_id i dt)]))
          as (n & Hn & Htr & Hret).
        exists (S n). simpl. split_and!; [lia| |naive_solver].
        by rewrite Htr, <-(assoc_L (++)).
      - exists 1%nat. simpl. split_and!; [lia| |done].
        by rewrite take_0. }
    destruct dataset_id as [|d ds]; [done|].
    destruct ((d :: ds) !! i); [done|].
    exists 0%nat. simpl. split_and!; [lia| |done]. by rewrite app_nil_r.
Qed.

Lemma appends_collect_outputs (self : ManifestGeneration) dataset_id dts :
  ∀ i all_outputs, appends (collect_outputs w self dataset_id i dts all_outputs).
Proof.
  induction dts as [|dt rest IH]; intros i all_outputs tr.
  - simpl. unfold ret. simpl. by rewrite app_nil_r.
  - rewrite !collect_outputs_cons.
    assert (∀ tr0,
      (match created w self dt (paired_dataset_id dataset_id i)
               (_get_manifest_title self dt) with
       | Return o =>
           collect_outputs w self dataset_id (S i) rest (all_outputs ++ [o])
             (tr0 ++ [ManifestRequested (request_of self dataset_id i dt)])
       | Raise e =>
           (Raise e,
            tr0 ++ [ManifestRequested (request_of self dataset_id i dt)])
       end)
      = ((match created w self dt (paired_dataset_id dataset_id i)
                  (_get_manifest_title self dt) with
          | Return o =>
              collect_outputs w self dataset_id (S i) rest
                (all_outputs ++ [o])
                [ManifestRequested (request_of self dataset_id i dt)]
          | Raise e =>
              (Raise e,
               [ManifestRequested (request_of self dataset_id i dt)])
          end).1,
         tr0 ++
         (match created w self dt (paired_dataset_id dataset_id i)
                  (_get_manifest_title self dt) with
          | Return o =>
              collect_outputs w self dataset_id (S i) rest
                (all_outputs ++ [o])
                [ManifestRequested (request_of self dataset_id i dt)]
          | Raise e =>
              (Raise e,
               [ManifestRequested (request_of self dataset_id i dt)])
          end).2)) as Hgo.
    { intros tr0. destruct (created w self dt _ _) as [o|e]; [|done].
      rewrite (IH (S i) (all_outputs ++ [o]) (tr0 ++ [_])).
      rewrite (IH (S i) (all_outputs ++ [o]) [_]). simpl.
      by rewrite <-!(assoc_L (++)). }
    destruct dataset_id as [|d ds].
    + rewrite (Hgo tr). by rewrite (Hgo []).
    + destruct ((d :: ds) !! i).
      * rewrite (Hgo tr). by rewrite (Hgo []).
      * simpl. by rewrite app_nil_r.
Qed.

(** As long as the ids reach and the creations succeed, the loop
    goes on: after [k] such turns it stands at position [i + k] with
    [k] more outputs and [k] more requests. *)
Lemma collect_outputs_skip (self : ManifestGeneration) dataset_id k :
  ∀ dts i all_outputs tr,
  (k ≤ length dts)%nat →
  (∀ j dt, (j < k)%nat → dts !! j = Some dt →
     (dataset_id = [] ∨ (i + j < length dataset_id)%nat)
     ∧ is_raise (created w self dt (paired_dataset_id dataset_id (i + j))
                   (_get_manifest_title self dt)) = false) →
  ∃ l, length l = k
     ∧ collect_outputs w self dataset_id i dts all_outputs tr
       = collect_outputs w self dataset_id (i + k) (drop k dts)
           (all_outputs ++ l)
           (tr ++ take k (request_events self dataset_id i dts)).
Proof.
  induction k as [|k IH]; intros dts i all_outputs tr Hk Hok.
  - exists []. rewrite Nat.add_0_r, drop_0, take_0, !app_nil_r. done.
  - destruct dts as [|dt rest]; [simpl in Hk; lia|].
    destruct (Hok 0%nat dt) as [Hids Hc]; [lia|done|].
    rewrite Nat.add_0_r in Hids, Hc.
    rewrite collect_outputs_cons, request_events_cons.
    destruct (created w self dt _ _) as [o|e] eqn:Ho; [|done].
    destruct (IH rest (S i) (all_outputs ++ [o])
                (tr ++ [ManifestRequested (request_of self dataset_id i dt)]))
      as (l & Hl & Hrun).
    { simpl in Hk. lia. }
    { intros j dt' Hj Hdt'. destruct (Hok (S j) dt') as [H1 H2]; [lia|done|].
      replace (S i + j)%nat with (i + S j)%nat by lia. done. }
    exists (o :: l). split; [simpl; by rewrite Hl|].
    assert (match dataset_id, dataset_id !! i with
            | _ :: _, None => false
            | _, _ => true
            end = true) as Hreach.
    { destruct Hids as [->|Hlt]; [done|].
      destruct dataset_id as [|d ds]; [done|].
      by destruct (lookup_lt_is_Some_2 (d :: ds) i Hlt) as [s ->]. }
    replace (i + S k)%nat with (S i + k)%nat by lia. simpl.
    rewrite <-!(assoc_L (++)) in Hrun. simpl in Hrun. rewrite <-Hrun.
    destruct dataset_id as [|d ds]; [done|].
    by destruct ((d :: ds) !! i).
Qed.

(** Outside excel the collection is the loop. *)
Lemma generate_list_run (self : ManifestGeneration)
    (data_type_lst dataset_id : list string) :
  output_format self ≠ Some "excel" →
  run (generate_manifest_and_collect_outputs w self data_type_lst dataset_id)
  = (match (collect_outputs w self dataset_id 0 data_type_lst [] []).1 with
     | Return l => Return (Many l)
     | Raise e => Raise e
     end,
     (collect_outputs w self dataset_id 0 data_type_lst [] []).2).
Proof.
  intros Hfmt. unfold generate_manifest_and_collect_outputs, run.
  rewrite bool_decide_eq_false_2 by done. unfold mbind, M_bind, bind.
  by destruct (collect_outputs w self dataset_id 0 data_type_lst [] [])
    as [[l|e] tr].
Qed.

(** X4: for every format but excel the collection logs nothing but
    requests to the generator, and these are the requests of the first
    components, in their order, one each; it returns only after it has
    asked for every component. *)
Theorem list_formats_requests_in_order (self : ManifestGeneration)
    (data_type_lst dataset_id : list string) :
  output_format self ≠ Some "excel" →
  let out := run (generate_manifest_and_collect_outputs w self data_type_lst
                    dataset_id) in
  ∃ n, (n ≤ length data_type_lst)%nat
     ∧ out.2 = take n (request_events self dataset_id 0 data_type_lst)
     ∧ (is_raise out.1 = false → n = length data_type_lst).
Proof.
  intros Hfmt. cbv zeta. unfold generate_manifest_and_collect_outputs, run.
  rewrite bool_decide_eq_false_2 by done.
  destruct (collect_outputs_prefix self dataset_id data_type_lst 0 [] [])
    as (n & Hn & Htr & Hret).
  exists n. unfold mbind, M_bind, bind.
  destruct (collect_outputs w self dataset_id 0 data_type_lst [] [])
    as [[l|e] tr]; simpl in *; naive_solver.
Qed.

(** X5: for every format but excel the collection stops at the first
    manifest that cannot be created: it raises that error and has asked
    for the components up to that one and for no later one. *)
Theorem list_formats_stop_at_first_failure (self : ManifestGeneration)
    (data_type_lst dataset_id : list string) (k : nat) (dt : string) (e : exn) :
  output_format self ≠ Some "excel" →
  data_type_lst !! k = Some dt →
  dataset_id = [] ∨ (k < length dataset_id)%nat →
  (∀ j dt', (j < k)%nat → data_type_lst !! j = Some dt' →
     is_raise (created w self dt' (paired_dataset_id dataset_id j)
                 (_get_manifest_title self dt')) = false) →
  created w self dt (paired_dataset_id dataset_id k)
    (_get_manifest_title self dt) = Raise e →
  run (generate_manifest_and_collect_outputs w self data_type_lst dataset_id)
  = (Raise e, take (S k) (request_events self dataset_id 0 data_type_lst)).
Proof.
  intros Hfmt Hk Hids Hok Hfail.
  unfold generate_manifest_and_collect_outputs, run.
  rewrite bool_decide_eq_false_2 by done.
  unfold mbind, M_bind, bind.
  destruct (collect_outputs_skip self dataset_id k data_type_lst 0 [] [])
    as (l & Hl & ->).
  { apply lookup_lt_Some in Hk. lia. }
  { intros j dt' Hj Hdt'. split; [|by apply Hok].
    destruct Hids as [->|Hlt]; [by left|right; lia]. }
  simpl. rewrite (drop_S _ dt k) by done.
  rewrite collect_outputs_cons, Hfail.
  assert (match dataset_id, dataset_id !! k with
          | _ :: _, None => false
          | _, _ => true
          end = true) as Hreach.
  { destruct Hids as [->|Hlt]; [done|].
    destruct dataset_id as [|d ds]; [done|].
    by destruct (lookup_lt_is_Some_2 (d :: ds) k Hlt) as [s ->]. }
  assert (take (S k) (request_events self dataset_id 0 data_type_lst)
          = take k (request_events self dataset_id 0 data_type_lst)
            ++ [ManifestRequested (request_of self dataset_id k dt)]) as ->.
  { unfold request_events. erewrite take_S_r; [done|].
    rewrite list_lookup_imap, Hk. done. }
  destruct dataset_id as [|d ds]; [done|].
  by destruct ((d :: ds) !! k).
Qed.

(** X6: for every format but excel, dataset ids that run out before
    the components do are an IndexError, raised once a manifest has
    been created for every id. *)
Theorem list_formats_ids_run_out (self : ManifestGeneration)
    (data_type_lst dataset_id : list string) :
  output_format self ≠ Some "excel" →
  dataset_id ≠ [] →
  (length dataset_id < length data_type_lst)%nat →
  (∀ j dt, (j < length dataset_id)%nat → data_type_lst !! j = Some dt →
     is_raise (created w self dt (paired_dataset_id dataset_id j)
                 (_get_manifest_title self dt)) = false) →
  run (generate_manifest_and_collect_outputs w self data_type_lst dataset_id)
  = (Raise IndexError,
     take (length dataset_id) (request_events self dataset_id 0 data_type_lst)).
Proof.
  intros Hfmt Hne Hlen Hok.
  unfold generate_manifest_and_collect_outputs, run.
  rewrite bool_decide_eq_false_2 by done.
  unfold mbind, M_bind, bind.
  destruct (collect_outputs_skip self dataset_id (length dataset_id)
              data_type_lst 0 [] []) as (l & Hl & ->).
  { lia. }
  { intros j dt Hj Hdt. split; [right; lia|by apply Hok]. }
  simpl.
  destruct (lookup_lt_is_Some_2 data_type_lst (length dataset_id) Hlen)
    as [dt Hdt].
  rewrite (drop_S _ dt _) by done. rewrite collect_outputs_cons.
  destruct dataset_id as [|d ds]; [done|].
  by rewrite (lookup_ge_None_2 (d :: ds) (length (d :: ds))) by lia.
Qed.

End Collecting.

(** ** The generation route, end to end *)

Lemma Forall_requested (P : generator_call → Prop) tr :
  Forall (request_event P) tr → Forall P (requested tr).
Proof.
  induction 1 as [|ev tr Hev _ IH]; [constructor|].
  destruct ev; simpl in *; try done. by constructor.
Qed.

Lemma requested_app tr1 tr2 :
  requested (tr1 ++ tr2) = requested tr1 ++ requested tr2.
Proof. unfold requested. apply omap_app. Qed.

Section Generation.

Variable w : World.

Lemma appends_index {A} (l : list A) i : appends (index l i).
Proof. apply silent_appends. intros tr. unfold index. by destruct (l !! i). Qed.

Ltac appends_steps :=
  repeat first
    [ apply appends_bind | apply appends_ret | apply appends_raise
    | apply appends_lift | apply appends_emit | apply appends_index
    | apply appends_create_single_manifest | apply appends_collect_outputs
    | intros ? | case_match ].

Lemma appends_generate (self : ManifestGeneration) dts ds :
  appends (generate_manifest_and_collect_outputs w self dts ds).
Proof.
  unfold generate_manifest_and_collect_outputs, warning. appends_steps.
Qed.

(** The excel branch, step by step. *)
Lemma generate_excel_run (self : ManifestGeneration)
    (data_type_lst dataset_id : list string) :
  output_format self = Some "excel" →
  run (generate_manifest_and_collect_outputs w self data_type_lst dataset_id) =
    match data_type_lst with
    | [] => (Raise IndexError, [])
    | first :: rest =>
        let t := _get_manifest_title self first in
        let single_dataset_id := default "" (head dataset_id) in
        (match created w self first single_dataset_id t with
         | Return o => Return (One o)
         | Raise e => Raise e
         end,
         match rest with
         | [] => []
         | _ :: _ => [Warning (excel_components_message t)]
         end
         ++ match dataset_id with
            | [] => []
            | first_id :: _ => [Warning (excel_dataset_message first_id t)]
            end
         ++ [ManifestRequested
               (generator_call_of self first single_dataset_id t)])
    end.
Proof.
  intros Hfmt. unfold generate_manifest_and_collect_outputs, run.
  rewrite bool_decide_eq_true_2 by done.
  destruct data_type_lst as [|first [|second rest]]; [done| |];
    destruct dataset_id as [|first_id ids]; unfold_monad; simpl;
    rewrite create_single_manifest_run; simpl;
    destruct (created w self first _ _); done.
Qed.

(** X7: for excel the collection asks the generator for at most one
    manifest: for none, with an IndexError, when there is no component,
    and otherwise for that of the first component, whose outcome is its
    own.  Before the request it warns once when there are further
    components, and once more whenever dataset ids are given, be it a
    single one. *)
Theorem excel_one_request (self : ManifestGeneration)
    (data_type_lst dataset_id : list string) :
  output_format self = Some "excel" →
  let out := run (generate_manifest_and_collect_outputs w self data_type_lst
                    dataset_id) in
  (data_type_lst = [] → out = (Raise IndexError, []))
  ∧ (∀ first rest, data_type_lst = first :: rest →
       let t := _get_manifest_title self first in
       let single_dataset_id := default "" (head dataset_id) in
       requested out.2 = [generator_call_of self first single_dataset_id t]
       ∧ out.1 = match created w self first single_dataset_id t with
                 | Return o => Return (One o)
                 | Raise e => Raise e
                 end
       ∧ warnings out.2 =
           match rest with
           | [] => []
           | _ :: _ => [excel_components_message t]
           end
           ++ match dataset_id with
              | [] => []
              | first_id :: _ => [excel_dataset_message first_id t]
              end).
Proof.
  intros Hfmt. cbv zeta. rewrite (generate_excel_run _ _ _ Hfmt). split.
  - by intros ->.
  - intros first rest ->. cbv zeta.
    destruct rest as [|second rest], dataset_id as [|first_id ids];
      split_and!; reflexivity.
Qed.

(** In excel a created manifest is a response. *)
Lemma created_excel_response (self : ManifestGeneration) dt ds t o :
  output_format self = Some "excel" →
  created w self dt ds t = Return o → ∃ body, o = Response body.
Proof.
  intros Hfmt. unfold created, create_single_manifest, run. unfold_monad.
  simpl. rewrite bool_decide_eq_true_2 by done.
  destruct (get_manifest w _) as [[path|rows]|e]; try done.
  destruct (send_from_directory w _ _ _); naive_solver.
Qed.

(** The route without dataset ids, step by step. *)
Lemma get_manifests_route_no_ids
    schema_url output_format access_token use_annotations data_type
    asset_view title :
  run (get_manifests_route w schema_url output_format access_token
         use_annotations [] data_type asset_view title) =
    match config_handler w asset_view [] with
    | (Raise e, tr0) => (Raise e, tr0)
    | (Return _, tr0) =>
        match urlopen_to_tempfile w schema_url with
        | Raise e => (Raise e, tr0)
        | Return jsonld =>
            match (run (components_of w jsonld data_type)).1 with
            | Raise e => (Raise e, tr0)
            | Return components =>
                let g := run (generate_manifest_and_collect_outputs w
                                (route_request schema_url output_format
                                   access_token use_annotations [] data_type
                                   asset_view title) components []) in
                (match g.1 with
                 | Return all_outputs =>
                     match (run (outputs_truth all_outputs)).1 with
                     | Return b =>
                         Return (if b then Some all_outputs else None)
                     | Raise e => Raise e
                     end
                 | Raise e => Raise e
                 end, tr0 ++ g.2)
            end
        end
    end.
Proof.
  unfold get_manifests_route, _load_config_, run; simpl.
  fold (route_request schema_url output_format access_token use_annotations
          [] data_type asset_view title).
  unfold mbind at 1, M_bind at 1, bind at 1.
  destruct (config_handler w asset_view []) as [[[]|e] tr0]; [|done].
  unfold mbind at 1, M_bind at 1, bind at 1, get_temp_jsonld, lift.
  destruct (urlopen_to_tempfile w schema_url) as [jsonld|e]; [|done].
  cbv beta iota.
  unfold mbind at 1, M_bind at 1, bind at 1, ret at 1.
  unfold mbind at 1, M_bind at 1, bind at 1.
  rewrite !components_of_spec. simpl.
  destruct (match data_type with
            | [] => Raise IndexError
            | first :: _ =>
                if bool_decide (first = "all manifests")
                then requiresComponent_nodes w jsonld
                else Return data_type
            end) as [components|e]; [|done].
  unfold mbind at 1, M_bind at 1, bind at 1.
  rewrite (appends_generate _ components [] tr0). cbv zeta.
  destruct (generate_manifest_and_collect_outputs w _ components [] []).1
    as [all_outputs|e]; [|done].
  unfold mbind, M_bind, bind.
  destruct all_outputs as [[[s|rows]|body]|l]; simpl; try done.
  - by destruct (truthy s).
  - by destruct (truthy l).
Qed.

Lemma request_events_no_ids (self : ManifestGeneration) i dts :
  Forall (request_event
            (λ c, c = generator_call_of self (gc_root c) ""
                        (_get_manifest_title self (gc_root c))))
    (request_events self [] i dts).
Proof.
  apply Forall_forall. intros ev Hev. unfold request_events in Hev.
  apply elem_of_lookup_imap_1 in Hev as (j & dt & -> & _). done.
Qed.

(** Without dataset ids every request the collection makes is for a
    fresh template under the title of its own component. *)
Lemma generate_no_ids_requests (self : ManifestGeneration) dts :
  Forall (request_event
            (λ c, c = generator_call_of self (gc_root c) ""
                        (_get_manifest_title self (gc_root c))))
    (run (generate_manifest_and_collect_outputs w self dts [])).2.
Proof.
  destruct (decide (output_format self = Some "excel")) as [Hx|Hx].
  - rewrite (generate_excel_run self dts [] Hx).
    destruct dts as [|first [|second rest]]; simpl; repeat constructor.
  - rewrite (generate_list_run w self dts [] Hx).
    destruct (collect_outputs_prefix w self [] dts 0 [] [])
      as (n & _ & -> & _).
    apply Forall_take, request_events_no_ids.
Qed.

(** X8: whatever its arguments, every manifest get_manifests_route
    asks of the generator is a fresh template, never the manifest of a
    dataset: its dataset id is empty.  It is asked under the title
    derived from its own component, for the caller's schema url, output
    format, token and use_annotations. *)
Theorem route_requests_fresh_templates
    (schema_url output_format access_token : string) (use_annotations : bool)
    (dataset_id data_type : list string) (asset_view : option string)
    (title : string) :
  let self := route_request schema_url output_format access_token
                use_annotations dataset_id data_type asset_view title in
  Forall (λ c, gc_dataset_id c = ""
             ∧ gc_title c = _get_manifest_title self (gc_root c)
             ∧ gc_path_to_json_ld c = schema_url
             ∧ gc_output_format c = Some output_format
             ∧ gc_access_token c = Some access_token
             ∧ gc_use_annotations c = Some use_annotations)
    (requested
       (run (get_manifests_route w schema_url output_format access_token
               use_annotations dataset_id data_type asset_view title)).2).
Proof.
  cbv zeta. pose proof (config_handler_requested w asset_view []) as Hreq.
  destruct dataset_id as [|d ds].
  - rewrite get_manifests_route_no_ids.
    destruct (config_handler w asset_view []) as [[[]|e] tr0]; simpl in Hreq;
      change (requested tr0 = []) in Hreq; [|simpl; rewrite Hreq; constructor].
    destruct (urlopen_to_tempfile w schema_url) as [jsonld|e];
      [|simpl; rewrite Hreq; constructor].
    destruct (run (components_of w jsonld data_type)).1 as [components|e];
      [|simpl; rewrite Hreq; constructor].
    cbv zeta. simpl. rewrite requested_app, Hreq. simpl.
    eapply Forall_impl; [apply Forall_requested, generate_no_ids_requests|].
    simpl. intros c ->. done.
  - rewrite get_manifests_route_dataset_id.
    destruct (config_handler w asset_view []) as [[[]|e] tr0]; simpl in Hreq;
      change (requested tr0 = []) in Hreq; [|simpl; rewrite Hreq; constructor].
    destruct (urlopen_to_tempfile w schema_url); simpl; rewrite Hreq;
      constructor.
Qed.

(** X9: a format other than excel, no dataset ids: once the
    configuration is loaded, the schema is fetched and the components
    are resolved, and when every manifest is created, the route returns
    the list of the artifacts, one per resolved component in order, and
    has asked for exactly these; when no component was resolved (an
    empty requirement graph) it returns None, not an empty list. *)
Theorem route_templates_one_per_component
    (schema_url output_format access_token : string) (use_annotations : bool)
    (data_type : list string) (asset_view : option string) (title : string)
    (jsonld : string) (components : list string) :
  let self := route_request schema_url output_format access_token
                use_annotations [] data_type asset_view title in
  output_format ≠ "excel" →
  config_ok w asset_view →
  urlopen_to_tempfile w schema_url = Return jsonld →
  (run (components_of w jsonld data_type)).1 = Return components →
  (∀ i dt, components !! i = Some dt →
     is_raise (created w self dt "" (_get_manifest_title self dt)) = false) →
  ∃ l, length l = length components
     ∧ (∀ i dt, components !! i = Some dt →
          ∃ o, l !! i = Some o
               ∧ created w self dt "" (_get_manifest_title self dt) = Return o)
     ∧ run (get_manifests_route w schema_url output_format access_token
              use_annotations [] data_type asset_view title)
       = (Return (match l with [] => None | _ :: _ => Some (Many l) end),
          config_events w asset_view ++ request_events self [] 0 components).
Proof.
  intros self Hfmt Hcfg Hurl Hcomp Hok.
  destruct (collect_outputs_spec w self [] components 0 [] [])
    as (l & Hrun & Hlen & Hl); [by left|done|].
  exists l. split_and!; [done|done|].
  rewrite get_manifests_route_no_ids, (config_handler_ok _ _ _ Hcfg), Hurl,
    Hcomp.
  fold self. cbv zeta.
  unfold generate_manifest_and_collect_outputs, run.
  rewrite bool_decide_eq_false_2 by (simpl; congruence).
  unfold mbind, M_bind, bind. rewrite Hrun. simpl.
  by destruct l.
Qed.

(** X10: excel, no dataset ids: once the configuration is loaded, the
    schema is fetched and the components are resolved, the route
    answers with the one response made for the first resolved
    component, or with the error of making it; when no component was
    resolved it is an IndexError. *)
Theorem route_excel_first_component
    (schema_url access_token : string) (use_annotations : bool)
    (data_type : list string) (asset_view : option string) (title : string)
    (jsonld : string) (components : list string) :
  let self := route_request schema_url "excel" access_token
                use_annotations [] data_type asset_view title in
  config_ok w asset_view →
  urlopen_to_tempfile w schema_url = Return jsonld →
  (run (components_of w jsonld data_type)).1 = Return components →
  (run (get_manifests_route w schema_url "excel" access_token
          use_annotations [] data_type asset_view title)).1 =
    match components with
    | [] => Raise IndexError
    | first :: _ =>
        match created w self first "" (_get_manifest_title self first) with
        | Return o => Return (Some (One o))
        | Raise e => Raise e
        end
    end.
Proof.
  intros self Hcfg Hurl Hcomp.
  rewrite get_manifests_route_no_ids, (config_handler_ok _ _ _ Hcfg), Hurl,
    Hcomp.
  fold self. cbv zeta. rewrite (generate_excel_run self) by done.
  destruct components as [|first rest]; [done|]. simpl.
  destruct (created w self first "" _) as [o|e] eqn:Ho; [|done].
  by destruct (created_excel_response self _ _ _ _ eq_refl Ho) as [body ->].
Qed.

End Generation.

(** ** Validation and submission, step by step *)

Section Pipeline.

Variable w : World.

(** [config_handler] logs loads of the configuration only, and returns
    only when the configuration is there. *)
Lemma config_handler_cases asset_view r tr0 :
  config_handler w asset_view [] = (r, tr0) →
  Forall is_load_config tr0
  ∧ (∀ u, r = Return u → config_ok w asset_view
                         ∧ tr0 = config_events w asset_view).
Proof.
  unfold config_handler, config_ok, config_events. unfold_monad.
  destruct (app_config w !! "SCHEMATIC_CONFIG") as [path|] eqn:Hp;
    [|intros; simplify_eq; split; [constructor|done]].
  destruct (isfile w path) eqn:Hf;
    [|intros; simplify_eq; split; [constructor|done]].
  simpl. destruct (load_config w path asset_view) as [[]|e] eqn:Hl;
    intros; simplify_eq; (split; [by repeat constructor|]); [|done].
  intros u _. split; [by exists path|done].
Qed.

Lemma validate_manifest_route_cases schema_url data_type restrict_rules
    json_str :
  run (validate_manifest_route w schema_url data_type restrict_rules json_str)
  = match config_handler w None [] with
    | (Raise e, tr0) => (Raise e, tr0)
    | (Return _, tr0) =>
        match normalized w json_str "example_json" with
        | Raise e => (Raise e, tr0)
        | Return temp_path =>
            match urlopen_to_tempfile w schema_url with
            | Raise e => (Raise e, tr0)
            | Return jsonld =>
                match MetadataModel_init w jsonld with
                | Raise e => (Raise e, tr0)
                | Return _ =>
                    let rr := effective_restrict_rules restrict_rules in
                    (match validateModelManifest w jsonld temp_path data_type
                             rr with
                     | Return r => Return (res_dict_of r)
                     | Raise e => Raise e
                     end,
                     tr0 ++ [Validated temp_path data_type rr])
                end
            end
        end
    end.
Proof.
  unfold validate_manifest_route, run.
  assert ((if negb (truthy (effective_restrict_rules restrict_rules))
           then Some false else effective_restrict_rules restrict_rules)
          = effective_restrict_rules restrict_rules) as Hrr.
  { unfold effective_restrict_rules. by destruct restrict_rules as [[]|]. }
  fold (effective_restrict_rules restrict_rules). rewrite Hrr.
  unfold mbind at 1, M_bind at 1, bind at 1.
  destruct (config_handler w None []) as [[[]|e] tr0]; [|done].
  unfold mbind at 1, M_bind at 1, bind at 1. rewrite temp_path_of_run.
  destruct (normalized w json_str "example_json") as [temp_path|e]; [|done].
  unfold get_temp_jsonld. unfold_monad. cbv beta iota.
  destruct (urlopen_to_tempfile w schema_url) as [jsonld|e]; [|done].
  cbv beta iota.
  destruct (MetadataModel_init w jsonld) as [[]|e]; [|done].
  cbv beta iota zeta.
  destruct (validateModelManifest w jsonld temp_path data_type _)
    as [[errors warnings]|e]; done.
Qed.

Lemma not_validated_load_config tr p d rr :
  Forall is_load_config tr → Validated p d rr ∉ tr.
Proof.
  intros HF Hin. rewrite Forall_forall in HF. by apply HF in Hin.
Qed.

(** X11: the validation route calls the validator at most once, and
    only after the configuration was loaded, the upload normalised, the
    schema fetched and the model built; it is called on the normalised
    file, for the caller's data type, and what the route then returns
    or raises is what the validator returned or raised. *)
Theorem validator_called_only_when_ready
    (schema_url data_type : string) (restrict_rules : option bool)
    (json_str : option string) (p d : string) (rr : option bool) :
  let out := run (validate_manifest_route w schema_url data_type
                    restrict_rules json_str) in
  Validated p d rr ∈ out.2 →
  config_ok w None
  ∧ normalized w json_str "example_json" = Return p
  ∧ d = data_type
  ∧ rr = effective_restrict_rules restrict_rules
  ∧ (∃ jsonld, urlopen_to_tempfile w schema_url = Return jsonld
             ∧ MetadataModel_init w jsonld = Return tt
             ∧ out.1 = match validateModelManifest w jsonld p d rr with
                       | Return r => Return (res_dict_of r)
                       | Raise e => Raise e
                       end)
  ∧ out.2 = config_events w None ++ [Validated p d rr].
Proof.
  cbv zeta. rewrite validate_manifest_route_cases.
  destruct (config_handler w None []) as [[[]|e] tr0] eqn:Hc;
    apply config_handler_cases in Hc as [Hlc Hok]; simpl;
    [|intros Hin; by apply not_validated_load_config in Hin].
  destruct (Hok () eq_refl) as [Hcfg ->].
  destruct (normalized w json_str "example_json") as [temp_path|e]; simpl;
    [|intros Hin; by apply not_validated_load_config in Hin].
  destruct (urlopen_to_tempfile w schema_url) as [jsonld|e]; simpl;
    [|intros Hin; by apply not_validated_load_config in Hin].
  destruct (MetadataModel_init w jsonld) as [[]|e] eqn:Hm; simpl;
    [|intros Hin; by apply not_validated_load_config in Hin].
  intros Hin. apply elem_of_app in Hin as [Hin|Hin];
    [by apply not_validated_load_config in Hin|].
  apply list_elem_of_singleton in Hin. simplify_eq.
  split_and!; try done. by exists jsonld.
Qed.

Lemma not_submitted_load_config tr c :
  Forall is_load_config tr → Submitted c ∉ tr.
Proof.
  intros HF Hin. rewrite Forall_forall in HF. by apply HF in Hin.
Qed.

(** The submission route, step by step. *)
Lemma submit_manifest_route_cases schema_url asset_view manifest_record_type
    json_str table_manipulation data_type :
  run (submit_manifest_route w schema_url asset_view manifest_record_type
         json_str table_manipulation data_type)
  = match config_handler w asset_view [] with
    | (Raise e, tr0) => (Raise e, tr0)
    | (Return _, tr0) =>
    match normalized w json_str "example_json.csv" with
    | Raise e => (Raise e, tr0)
    | Return temp_path =>
    match request_args w !! "dataset_id" with
    | None => (Raise (KeyError "dataset_id"), tr0)
    | Some dataset_id =>
    match request_args w !! "restrict_rules" with
    | None => (Raise (KeyError "restrict_rules"), tr0)
    | Some restrict_rules_arg =>
    match (run (parse_bool restrict_rules_arg)).1 with
    | Raise e => (Raise e, tr0)
    | Return restrict_rules =>
    match urlopen_to_tempfile w schema_url with
    | Raise e => (Raise e, tr0)
    | Return jsonld =>
    match MetadataModel_init w jsonld with
    | Raise e => (Raise e, tr0)
    | Return _ =>
    match request_args w !! "access_token" with
    | None => (Raise (KeyError "access_token"), tr0)
    | Some access_token =>
    match request_args w !! "use_schema_label" with
    | None => (Raise (KeyError "use_schema_label"), tr0)
    | Some use_schema_label_arg =>
    match (run (use_schema_label_of use_schema_label_arg)).1 with
    | Raise e => (Raise e, tr0)
    | Return use_schema_label =>
        let c := submission_of schema_url manifest_record_type
                   table_manipulation data_type temp_path
                   (dataset_id, restrict_rules, access_token,
                    use_schema_label) in
        (submit_metadata_manifest w jsonld c, tr0 ++ [Submitted c])
    end end end end end end end end end end.
Proof.
  unfold submit_manifest_route, run.
  unfold mbind at 1, M_bind at 1, bind at 1.
  destruct (config_handler w asset_view []) as [[[]|e] tr0]; [|done].
  unfold mbind at 1, M_bind at 1, bind at 1. rewrite temp_path_of_run.
  destruct (normalized w json_str "example_json.csv") as [temp_path|e];
    [|done].
  unfold mbind at 1, M_bind at 1, bind at 1, getitem at 1.
  destruct (request_args w !! "dataset_id") as [dataset_id|]; [|done].
  unfold mbind at 1, M_bind at 1, bind at 1, getitem at 1, ret at 1.
  destruct (request_args w !! "restrict_rules") as [restrict_rules_arg|];
    [|done].
  unfold ret at 1.
  unfold mbind at 1, M_bind at 1, bind at 1. rewrite parse_bool_run.
  unfold run.
  destruct (parse_bool restrict_rules_arg []).1 as [restrict_rules|e];
    [|done].
  unfold mbind at 1, M_bind at 1, bind at 1.
  unfold initalize_metadata_model, get_temp_jsonld.
  unfold mbind at 1 2, M_bind at 1 2, bind at 1 2, lift at 1 2.
  destruct (urlopen_to_tempfile w schema_url) as [jsonld|e]; [|done].
  cbv beta iota.
  destruct (MetadataModel_init w jsonld) as [[]|e]; [|done].
  unfold ret at 1.
  unfold mbind at 1, M_bind at 1, bind at 1, getitem at 1.
  destruct (request_args w !! "access_token") as [access_token|]; [|done].
  unfold ret at 1.
  unfold mbind at 1, M_bind at 1, bind at 1, getitem at 1.
  destruct (request_args w !! "use_schema_label") as [use_schema_label_arg|];
    [|done].
  unfold ret at 1.
  unfold mbind at 1, M_bind at 1, bind at 1.
  rewrite !use_schema_label_of_run. cbv beta iota. simpl fst.
  destruct (if bool_decide (use_schema_label_arg = "None") then Return true
            else (parse_bool use_schema_label_arg []).1)
    as [use_schema_label|e]; done.
Qed.

(** X12: the submission route submits at most once, and only after
    the configuration was loaded, the upload normalised, the request
    arguments dataset_id, restrict_rules, access_token and
    use_schema_label all found and the two booleans parsed, the schema
    fetched and the model built.  What it submits has a record type
    and a table manipulation that are not empty, validates no component
    named "None", and is for the caller's schema url; what the route
    returns or raises is what the submission returned or raised. *)
Theorem submission_only_when_ready
    (schema_url : string)
    (asset_view manifest_record_type json_str table_manipulation
     data_type : option string) (c : submit_call) :
  let out := run (submit_manifest_route w schema_url asset_view
                    manifest_record_type json_str table_manipulation
                    data_type) in
  Submitted c ∈ out.2 →
  config_ok w asset_view
  ∧ normalized w json_str "example_json.csv" = Return (sc_manifest_path c)
  ∧ submit_arguments w
    = Return (sc_dataset_id c, sc_restrict_rules c, sc_access_token c,
              sc_use_schema_label c)
  ∧ (∃ jsonld, urlopen_to_tempfile w schema_url = Return jsonld
             ∧ MetadataModel_init w jsonld = Return tt
             ∧ out.1 = submit_metadata_manifest w jsonld c)
  ∧ submitted out.2 = [c]
  ∧ sc_path_to_json_ld c = schema_url
  ∧ sc_manifest_record_type c ≠ ""
  ∧ sc_table_manipulation c ≠ ""
  ∧ sc_validate_component c ≠ Some "None".
Proof.
  cbv zeta. rewrite submit_manifest_route_cases. unfold submit_arguments.
  destruct (config_handler w asset_view []) as [[[]|e] tr0] eqn:Hc;
    apply config_handler_cases in Hc as [Hlc Hok]; simpl;
    [|intros Hin; by apply not_submitted_load_config in Hin].
  destruct (Hok () eq_refl) as [Hcfg ->].
  destruct (normalized w json_str "example_json.csv") as [temp_path|e];
    [|intros Hin; by apply not_submitted_load_config in Hin].
  destruct (request_args w !! "dataset_id") as [dataset_id|];
    [|intros Hin; by apply not_submitted_load_config in Hin].
  destruct (request_args w !! "restrict_rules") as [restrict_rules_arg|];
    [|intros Hin; by apply not_submitted_load_config in Hin].
  destruct (run (parse_bool restrict_rules_arg)).1 as [restrict_rules|e];
    [|intros Hin; by apply not_submitted_load_config in Hin].
  destruct (urlopen_to_tempfile w schema_url) as [jsonld|e];
    [|intros Hin; by apply not_submitted_load_config in Hin].
  destruct (MetadataModel_init w jsonld) as [[]|e] eqn:Hm;
    [|intros Hin; by apply not_submitted_load_config in Hin].
  destruct (request_args w !! "access_token") as [access_token|];
    [|intros Hin; by apply not_submitted_load_config in Hin].
  destruct (request_args w !! "use_schema_label") as [use_schema_label_arg|];
    [|intros Hin; by apply not_submitted_load_config in Hin].
  destruct (run (use_schema_label_of use_schema_label_arg)).1
    as [use_schema_label|e];
    [|intros Hin; by apply not_submitted_load_config in Hin].
  cbv zeta. simpl. intros Hin.
  apply elem_of_app in Hin as [Hin|Hin];
    [by apply not_submitted_load_config in Hin|].
  apply list_elem_of_singleton in Hin. simplify_eq. simpl.
  split_and!; try done.
  - by exists jsonld.
  - unfold submitted. rewrite omap_app.
    fold (submitted (config_events w asset_view)).
    by rewrite submitted_config_events.
  - by destruct manifest_record_type as [[|]|].
  - by destruct table_manipulation as [[|]|].
  - case_bool_decide; [done|congruence].
Qed.

End Pipeline.

(** ** Normalising the upload *)

Section Normalising.

Variable w : World.

(** X13: readJson reads the json string whenever it is not empty and
    looks at the file only otherwise; with neither a json string nor a
    file to read it is an UnboundLocalError, since nothing was bound to
    the dataframe it returns. *)
Theorem readJson_sources (json_str : option string)
    (manifest_file : option file_storage) :
  (∀ s, json_str = Some s → s ≠ "" →
     run (readJson w json_str manifest_file) = (read_json w s, []))
  ∧ (truthy json_str = false →
     ∀ f, manifest_file = Some f → filename f ≠ "" →
     run (readJson w json_str manifest_file) = (read_json w (contents f), []))
  ∧ (truthy json_str = false → truthy manifest_file = false →
     run (readJson w json_str manifest_file) = (Raise UnboundLocalError, [])).
Proof.
  unfold readJson, run, lift. split_and!.
  - intros s -> Hs. by destruct s.
  - intros Hj f -> Hf. destruct (filename f) eqn:Hn; [done|].
    destruct json_str as [[|]|]; try done; simpl;
      unfold truthy, truthy_file_storage; by rewrite Hn.
  - intros Hj Hf.
    destruct json_str as [[|]|], manifest_file as [f|]; try done;
      change (truthy f = false) in Hf; simpl; by rewrite Hf.
Qed.

(** X14: a json string is always written to the same file: when the
    normalisation of a non-empty json string returns, it returns the
    file name it was given, joined to the temporary directory, whatever
    the json is; the json was read and the dataframe written there. *)
Theorem json_string_temp_path (s file_name p : string) :
  s ≠ "" →
  normalized w (Some s) file_name = Return p →
  p = path_join w (gettempdir w) file_name
  ∧ ∃ df, read_json w s = Return df ∧ to_csv w df p = Return tt.
Proof.
  intros Hs. unfold normalized, temp_path_of, convert_json_str_to_csv,
    convert_df_to_csv, readJson, run.
  destruct s as [|c s]; [done|]. unfold_monad. simpl.
  destruct (read_json w (String c s)) as [df|e]; [|done].
  destruct (to_csv w df _) as [[]|e] eqn:Hcsv; [|done].
  intros [= <-]. split; [done|]. by exists df.
Qed.

(** X15: without a json string the route takes the upload named
    "file_name": without such an upload it is a KeyError.  When a path
    is returned it is what joining the temporary directory and a file
    name gives: for an upload of content type application/json the
    name is that of the upload without its extension, with ".csv", and
    the parsed upload was written there; for any other upload the name
    is the upload's own, and the upload was saved there. *)
Theorem upload_temp_path (json_str : option string) (file_name : string) :
  truthy json_str = false →
  (request_files w !! "file_name" = None →
     normalized w json_str file_name = Raise (KeyError "file_name"))
  ∧ (∀ p, normalized w json_str file_name = Return p →
       ∃ f, request_files w !! "file_name" = Some f
          ∧ ((content_type f = "application/json"
              ∧ p = path_join w (gettempdir w)
                      (splitext0 w (filename f) +:+ ".csv")
              ∧ ∃ df, read_json w (contents f) = Return df
                      ∧ to_csv w df p = Return tt)
             ∨ (content_type f ≠ "application/json"
                ∧ p = path_join w (gettempdir w) (filename f)
                ∧ file_save w f p = Return tt))).
Proof.
  intros Hj. unfold normalized, temp_path_of, run. rewrite Hj.
  unfold convert_json_file_to_csv, get_file, save_file, convert_df_to_csv,
    readJson, IsJsonFile.
  unfold_monad. split.
  - by intros ->.
  - intros p Hp. destruct (request_files w !! "file_name") as [f|]; [|done].
    exists f. split; [done|]. revert Hp. cbv beta iota.
    case_bool_decide as Hct.
    + destruct (truthy f); [|done]. simpl.
      destruct (read_json w (contents f)) as [df|e]; [|done].
      destruct (to_csv w df _) as [[]|e] eqn:Hcsv; [|done].
      intros [= <-]. left. split_and!; [done..|]. by exists df.
    + destruct (file_save w f _) as [[]|e] eqn:Hsave; [|done].
      intros [= <-]. by right.
Qed.

End Normalising.

(** ** The storage and population routes *)

Section Storage.

Variable w : World.
Variable st : Store.

Lemma forallb_truthy_strings (l : list string) :
  forallb truthy l = true ↔ "" ∉ l.
Proof.
  rewrite forallb_forall. split.
  - intros H Hin. apply list_elem_of_In, H in Hin. done.
  - intros H s Hs. destruct s; [|done]. by apply list_elem_of_In in Hs.
Qed.

Lemma storage_file_names_Some (l : list string) :
  storage_file_names (Some l) = if forallb truthy l then Some l else None.
Proof.
  unfold storage_file_names. destruct l as [|n ns]; [done|].
  change (truthy (Some (n :: ns))) with true.
  change (default [] (Some (n :: ns))) with (n :: ns).
  by destruct (forallb truthy (n :: ns)).
Qed.

Lemma storage_file_names_no_empty_name (file_names : option (list string)) :
  (∀ l, storage_file_names file_names = Some l → "" ∉ l)
  ∧ (∀ l, file_names = Some l → "" ∈ l → storage_file_names file_names = None)
  ∧ (∀ l, file_names = Some l → "" ∉ l →
       storage_file_names file_names = Some l)
  ∧ (file_names = None → storage_file_names file_names = None).
Proof.
  split_and!.
  - intros l. destruct file_names as [l'|]; [|done].
    rewrite storage_file_names_Some.
    destruct (forallb truthy l') eqn:Hf; [|done].
    intros [= <-]. by apply forallb_truthy_strings.
  - intros l -> Hin. rewrite storage_file_names_Some.
    destruct (forallb truthy l) eqn:Hf; [|done].
    by apply forallb_truthy_strings in Hf.
  - intros l -> Hin. rewrite storage_file_names_Some.
    apply forallb_truthy_strings in Hin. by rewrite Hin.
  - by intros ->.
Qed.

(** The route hands exactly these names to the store. *)
Lemma get_files_storage_dataset_run access_token asset_view dataset_id
    full_path file_names :
  config_ok w asset_view →
  SynapseStorage_init st access_token = Return tt →
  run (get_files_storage_dataset w st access_token asset_view dataset_id
         full_path file_names)
  = (getFilesInStorageDataset st access_token dataset_id
       (storage_file_names file_names) full_path,
     config_events w asset_view).
Proof.
  intros Hcfg Hinit. unfold get_files_storage_dataset, run.
  unfold mbind at 1, M_bind at 1, bind at 1.
  rewrite (config_handler_ok _ _ _ Hcfg). unfold_monad. by rewrite Hinit.
Qed.

(** X16: once the configuration is loaded and the store is opened,
    get_files_storage_dataset answers with what the store lists for the
    names it hands on, and these never hold an empty name: a list with
    an empty name in it, like the [''] of a request that names no file,
    is handed on as None, and every other value as it is. *)
Theorem stored_file_names (access_token : string) (asset_view : option string)
    (dataset_id : string) (full_path : bool)
    (file_names : option (list string)) :
  config_ok w asset_view →
  SynapseStorage_init st access_token = Return tt →
  ∃ names,
    run (get_files_storage_dataset w st access_token asset_view dataset_id
           full_path file_names)
    = (getFilesInStorageDataset st access_token dataset_id names full_path,
       config_events w asset_view)
    ∧ (∀ l, names = Some l → ("" ∉ l) ∧ file_names = Some l)
    ∧ (names = None →
       file_names = None ∨ ∃ l, file_names = Some l ∧ "" ∈ l).
Proof.
  intros Hcfg Hinit. exists (storage_file_names file_names).
  split; [by apply get_files_storage_dataset_run|].
  destruct file_names as [l|]; [|split; [done|by left]].
  rewrite storage_file_names_Some.
  destruct (forallb truthy l) eqn:Hf.
  - split; [|done]. intros l' [= <-]. split; [|done].
    by apply forallb_truthy_strings.
  - split; [done|]. intros _. right. exists l. split; [done|].
    destruct (decide ("" ∈ l)) as [|Hn]; [done|].
    apply forallb_truthy_strings in Hn. congruence.
Qed.

(** X17: download_dataset_manifest, once the configuration is loaded
    and the store has handed back the manifest's data: without a
    "path" in the data it raises a KeyError that names the dataset;
    with one it returns that path when as_json is false and the rows
    read from the file at that path when it is true. *)
Theorem download_dataset_manifest_path
    (access_token dataset_id : string) (asset_view : option string)
    (as_json : bool) (new_manifest_name : string)
    (manifest_data : gmap string string) :
  config_ok w asset_view →
  SynapseStorage_init st access_token = Return tt →
  getDatasetManifest st access_token dataset_id new_manifest_name
    = Return manifest_data →
  (run (download_dataset_manifest w st access_token dataset_id asset_view
          as_json new_manifest_name)).1 =
    match manifest_data !! "path" with
    | None => Raise (KeyError (download_failed_message dataset_id))
    | Some path =>
        if as_json then
          match read_csv_records st path with
          | Return rows => Return (Records rows)
          | Raise e => Raise e
          end
        else Return (LocalPath path)
    end.
Proof.
  intros Hcfg Hinit Hdata. unfold download_dataset_manifest, run.
  unfold mbind at 1, M_bind at 1, bind at 1.
  rewrite (config_handler_ok _ _ _ Hcfg).
  unfold return_as_json, try_except_on. unfold_monad.
  rewrite Hinit, Hdata.
  destruct (manifest_data !! "path") as [path|]; [|done].
  destruct as_json; [|done]. simpl.
  by destruct (read_csv_records st path).
Qed.

(** X18: populate_manifest_route takes the upload named "csv_file":
    once the configuration is loaded and the schema fetched, a request
    without it is a KeyError, whatever else was uploaded; with it, and
    once it is saved and the model built, the manifest is populated
    from the saved file, at the path that joining the temporary
    directory and the upload's own file name gives. *)
Theorem populate_manifest_route_upload
    (schema_url : string) (title data_type : option string)
    (return_excel : option bool) (jsonld : string) :
  config_ok w None →
  urlopen_to_tempfile w schema_url = Return jsonld →
  (request_files w !! "csv_file" = None →
     run (populate_manifest_route w st schema_url title data_type
            return_excel)
     = (Raise (KeyError "csv_file"), config_events w None))
  ∧ (∀ f, request_files w !! "csv_file" = Some f →
       let temp_path := path_join w (gettempdir w) (filename f) in
       file_save w f temp_path = Return tt →
       MetadataModel_init w jsonld = Return tt →
       run (populate_manifest_route w st schema_url title data_type
              return_excel)
       = (populateModelManifest st jsonld title temp_path data_type
            return_excel,
          config_events w None)).
Proof.
  intros Hcfg Hurl. unfold populate_manifest_route, run.
  unfold mbind at 1, M_bind at 1, bind at 1.
  rewrite (config_handler_ok _ _ _ Hcfg).
  unfold get_temp_jsonld, save_file. unfold_monad. rewrite Hurl. split.
  - by intros ->.
  - intros f -> Hsave Hmodel. cbv zeta in *.
    by rewrite Hsave, Hmodel, (config_handler_ok _ _ _ Hcfg).
Qed.

End Storage.

(** * The further properties on the sample worlds *)

Lemma manifest_title_injective_witness :
  "Patient" ≠ "Biospecimen"
  ∧ _get_manifest_title (sample_request "dataframe" "Cohort1" [] []) "Patient"
    ≠ _get_manifest_title (sample_request "dataframe" "Cohort1" [] [])
        "Biospecimen".
Proof.
  split; [discriminate|].
  apply (manifest_title_injective
           (sample_request "dataframe" "Cohort1" [] [])
           "Patient" "Biospecimen").
  discriminate.
Defined.

Lemma list_formats_requests_in_order_witness :
  let self := sample_request "dataframe" "" ["syn1"]
                ["Patient"; "Biospecimen"] in
  let out := run (generate_manifest_and_collect_outputs sample_world self
                    ["Patient"; "Biospecimen"] ["syn1"]) in
  ∃ n, (n ≤ 2)%nat
     ∧ out.2 = take n (request_events self ["syn1"] 0
                         ["Patient"; "Biospecimen"])
     ∧ (is_raise out.1 = false → n = 2%nat).
Proof.
  apply (list_formats_requests_in_order sample_world
           (sample_request "dataframe" "" ["syn1"] ["Patient"; "Biospecimen"])
           ["Patient"; "Biospecimen"] ["syn1"]).
  discriminate.
Defined.

Lemma list_formats_stop_at_first_failure_witness :
  let self := sample_request "dataframe" "" []
                ["Patient"; "Biospecimen"; "Sample"] in
  run (generate_manifest_and_collect_outputs patient_only_world self
         ["Patient"; "Biospecimen"; "Sample"] [])
  = (Raise (CollaboratorError "no template"),
     take 2 (request_events self [] 0 ["Patient"; "Biospecimen"; "Sample"])).
Proof.
  apply (list_formats_stop_at_first_failure patient_only_world
           (sample_request "dataframe" "" []
              ["Patient"; "Biospecimen"; "Sample"])
           ["Patient"; "Biospecimen"; "Sample"] [] 1 "Biospecimen"
           (CollaboratorError "no template")).
  - discriminate.
  - reflexivity.
  - left. reflexivity.
  - intros j dt' Hj Hdt. destruct j as [|j]; [|lia].
    injection Hdt as <-. reflexivity.
  - reflexivity.
Defined.

Lemma list_formats_ids_run_out_witness :
  let self := sample_request "dataframe" "" ["syn1"]
                ["Patient"; "Biospecimen"] in
  run (generate_manifest_and_collect_outputs sample_world self
         ["Patient"; "Biospecimen"] ["syn1"])
  = (Raise IndexError,
     take 1 (request_events self ["syn1"] 0 ["Patient"; "Biospecimen"])).
Proof.
  apply (list_formats_ids_run_out sample_world
           (sample_request "dataframe" "" ["syn1"] ["Patient"; "Biospecimen"])
           ["Patient"; "Biospecimen"] ["syn1"]).
  - discriminate.
  - discriminate.
  - simpl. lia.
  - intros j dt Hj Hdt. reflexivity.
Defined.

Lemma excel_one_request_witness :
  let self := sample_request "excel" "" ["syn1"] ["Patient"] in
  let out := run (generate_manifest_and_collect_outputs sample_world self
                    ["Patient"] ["syn1"]) in
  (["Patient"] = [] → out = (Raise IndexError, []))
  ∧ (∀ first rest, ["Patient"] = first :: rest →
       let t := _get_manifest_title self first in
       let single_dataset_id := default "" (head ["syn1"]) in
       requested out.2 = [generator_call_of self first single_dataset_id t]
       ∧ out.1 = match created sample_world self first single_dataset_id t
                 with
                 | Return o => Return (One o)
                 | Raise e => Raise e
                 end
       ∧ warnings out.2 =
           match rest with
           | [] => []
           | _ :: _ => [excel_components_message t]
           end
           ++ [excel_dataset_message "syn1" t]).
Proof.
  apply (excel_one_request sample_world
           (sample_request "excel" "" ["syn1"] ["Patient"])
           ["Patient"] ["syn1"]).
  reflexivity.
Defined.

(** One component and one dataset id in excel: the dataset warning is
    logged all the same. *)
Example excel_single_dataset_id_warns :
  run (generate_manifest_and_collect_outputs sample_world
         (sample_request "excel" "" ["syn1"] ["Patient"]) ["Patient"]
         ["syn1"])
  = (Return (One (Response "Example.Patient.manifest")),
     [Warning (excel_dataset_message "syn1" "Example.Patient.manifest");
      ManifestRequested
        (generator_call_of (sample_request "excel" "" ["syn1"] ["Patient"])
           "Patient" "syn1" "Example.Patient.manifest")]).
Proof. by vm_compute. Qed.

Lemma route_templates_one_per_component_witness :
  let self := route_request "https://example.org/model.jsonld" "google_sheet"
                "token" false [] ["all manifests"] None "Cohort1" in
  ∃ l, length l = 2%nat
     ∧ (∀ i dt, ["Patient"; "Biospecimen"] !! i = Some dt →
          ∃ o, l !! i = Some o
               ∧ created sample_world self dt "" (_get_manifest_title self dt)
                 = Return o)
     ∧ run (get_manifests_route sample_world
              "https://example.org/model.jsonld" "google_sheet" "token" false
              [] ["all manifests"] None "Cohort1")
       = (Return (match l with [] => None | _ :: _ => Some (Many l) end),
          config_events sample_world None
          ++ request_events self [] 0 ["Patient"; "Biospecimen"]).
Proof.
  apply (route_templates_one_per_component sample_world
           "https://example.org/model.jsonld" "google_sheet" "token" false
           ["all manifests"] None "Cohort1" "/tmp/schema.model.jsonld"
           ["Patient"; "Biospecimen"]).
  - discriminate.
  - exists "config.yml". vm_compute. repeat split; reflexivity.
  - reflexivity.
  - reflexivity.
  - intros i dt Hi. reflexivity.
Defined.

Lemma route_excel_first_component_witness :
  (run (get_manifests_route sample_world "https://example.org/model.jsonld"
          "excel" "token" false [] ["Patient"; "Biospecimen"] None "")).1
  = Return (Some (One (Response "Example.Patient.manifest"))).
Proof.
  apply (route_excel_first_component sample_world
           "https://example.org/model.jsonld" "token" false
           ["Patient"; "Biospecimen"] None "" "/tmp/schema.model.jsonld"
           ["Patient"; "Biospecimen"]).
  - exists "config.yml". vm_compute. repeat split; reflexivity.
  - reflexivity.
  - reflexivity.
Defined.

Lemma validator_called_only_when_ready_witness :
  let out := run (validate_manifest_route sample_world
                    "https://example.org/model.jsonld" "Patient" None
                    (Some "[{}]")) in
  config_ok sample_world None
  ∧ normalized sample_world (Some "[{}]") "example_json"
    = Return "/tmp/example_json"
  ∧ "Patient" = "Patient"
  ∧ Some false = effective_restrict_rules None
  ∧ (∃ jsonld,
       urlopen_to_tempfile sample_world "https://example.org/model.jsonld"
       = Return jsonld
       ∧ MetadataModel_init sample_world jsonld = Return tt
       ∧ out.1 = match validateModelManifest sample_world jsonld
                         "/tmp/example_json" "Patient" (Some false) with
                 | Return r => Return (res_dict_of r)
                 | Raise e => Raise e
                 end)
  ∧ out.2 = config_events sample_world None
            ++ [Validated "/tmp/example_json" "Patient" (Some false)].
Proof.
  apply (validator_called_only_when_ready sample_world
           "https://example.org/model.jsonld" "Patient" None (Some "[{}]")
           "/tmp/example_json" "Patient" (Some false)).
  apply list_elem_of_In. vm_compute. right. left. reflexivity.
Defined.

Lemma submission_only_when_ready_witness :
  let c := {| sc_path_to_json_ld := "https://example.org/model.jsonld";
              sc_manifest_path := "/tmp/example_json.csv";
              sc_dataset_id := "syn1";
              sc_validate_component := None;
              sc_access_token := "token";
              sc_manifest_record_type := "table_file_and_entities";
              sc_restrict_rules := false;
              sc_table_manipulation := "upsert";
              sc_use_schema_label := true |} in
  let out := run (submit_manifest_route sample_world
                    "https://example.org/model.jsonld" None None
                    (Some "[{}]") (Some "upsert") (Some "None")) in
  config_ok sample_world None
  ∧ normalized sample_world (Some "[{}]") "example_json.csv"
    = Return (sc_manifest_path c)
  ∧ submit_arguments sample_world
    = Return (sc_dataset_id c, sc_restrict_rules c, sc_access_token c,
              sc_use_schema_label c)
  ∧ (∃ jsonld,
       urlopen_to_tempfile sample_world "https://example.org/model.jsonld"
       = Return jsonld
       ∧ MetadataModel_init sample_world jsonld = Return tt
       ∧ out.1 = submit_metadata_manifest sample_world jsonld c)
  ∧ submitted out.2 = [c]
  ∧ sc_path_to_json_ld c = "https://example.org/model.jsonld"
  ∧ sc_manifest_record_type c ≠ ""
  ∧ sc_table_manipulation c ≠ ""
  ∧ sc_validate_component c ≠ Some "None".
Proof.
  apply (submission_only_when_ready sample_world
           "https://example.org/model.jsonld" None None (Some "[{}]")
           (Some "upsert") (Some "None")).
  apply list_elem_of_In. vm_compute. right. left. reflexivity.
Defined.

Lemma json_string_temp_path_witness :
  "/tmp/example_json" = path_join sample_world (gettempdir sample_world)
                          "example_json"
  ∧ ∃ df, read_json sample_world "[{}]" = Return df
          ∧ to_csv sample_world df "/tmp/example_json" = Return tt.
Proof.
  apply (json_string_temp_path sample_world "[{}]" "example_json"
           "/tmp/example_json").
  - discriminate.
  - vm_compute. reflexivity.
Defined.

Lemma upload_temp_path_witness :
  (request_files upload_world !! "file_name" = None →
     normalized upload_world None "example_json"
     = Raise (KeyError "file_name"))
  ∧ (∀ p, normalized upload_world None "example_json" = Return p →
       ∃ f, request_files upload_world !! "file_name" = Some f
          ∧ ((content_type f = "application/json"
              ∧ p = path_join upload_world (gettempdir upload_world)
                      (splitext0 upload_world (filename f) +:+ ".csv")
              ∧ ∃ df, read_json upload_world (contents f) = Return df
                      ∧ to_csv upload_world df p = Return tt)
             ∨ (content_type f ≠ "application/json"
                ∧ p = path_join upload_world (gettempdir upload_world)
                        (filename f)
                ∧ file_save upload_world f p = Return tt))).
Proof.
  apply (upload_temp_path upload_world None "example_json").
  reflexivity.
Defined.

Lemma stored_file_names_witness :
  ∃ names,
    run (get_files_storage_dataset sample_world sample_store "token" None
           "syn1" false (Some [""]))
    = (getFilesInStorageDataset sample_store "token" "syn1" names false,
       config_events sample_world None)
    ∧ (∀ l, names = Some l → ("" ∉ l) ∧ Some [""] = Some l)
    ∧ (names = None →
       Some [""] = None ∨ ∃ l, Some [""] = Some l ∧ "" ∈ l).
Proof.
  apply (stored_file_names sample_world sample_store "token" None "syn1"
           false (Some [""])).
  - exists "config.yml". vm_compute. repeat split; reflexivity.
  - reflexivity.
Defined.

Lemma download_dataset_manifest_path_witness :
  (run (download_dataset_manifest sample_world sample_store "token" "syn1"
          None true "")).1
  = match ({[ "path" := "/tmp/synapse/manifest.csv" ]} : gmap string string)
          !! "path" with
    | None => Raise (KeyError (download_failed_message "syn1"))
    | Some path =>
        match read_csv_records sample_store path with
        | Return rows => Return (Records rows)
        | Raise e => Raise e
        end
    end.
Proof.
  apply (download_dataset_manifest_path sample_world sample_store "token"
           "syn1" None true "" {[ "path" := "/tmp/synapse/manifest.csv" ]}).
  - exists "config.yml". vm_compute. repeat split; reflexivity.
  - reflexivity.
  - reflexivity.
Defined.

Lemma populate_manifest_route_upload_witness :
  (request_files upload_world !! "csv_file" = None →
     run (populate_manifest_route upload_world sample_store
            "https://example.org/model.jsonld" None (Some "Patient") None)
     = (Raise (KeyError "csv_file"), config_events upload_world None))
  ∧ (∀ f, request_files upload_world !! "csv_file" = Some f →
       let temp_path := path_join upload_world (gettempdir upload_world)
                          (filename f) in
       file_save upload_world f temp_path = Return tt →
       MetadataModel_init upload_world "/tmp/schema.model.jsonld"
       = Return tt →
       run (populate_manifest_route upload_world sample_store
              "https://example.org/model.jsonld" None (Some "Patient") None)
       = (populateModelManifest sample_store "/tmp/schema.model.jsonld" None
            temp_path (Some "Patient") None,
          config_events upload_world None)).
Proof.
  apply (populate_manifest_route_upload upload_world sample_store
           "https://example.org/model.jsonld" None (Some "Patient") None
           "/tmp/schema.model.jsonld").
  - exists "config.yml". vm_compute. repeat split; reflexivity.
  - reflexivity.
Defined.

(** The upload of the sample request is saved under its own name, and
    the template is populated from the upload named "csv_file". *)
Example upload_world_paths :
  normalized upload_world None "example_json" = Return "/tmp/patients.csv"
  ∧ (run (download_dataset_manifest sample_world sample_store "token" "syn1"
            None true "")).1
    = Return (Records [ {[ "Component" := "Patient" ]} ])
  ∧ (run (populate_manifest_route upload_world sample_store
            "https://example.org/model.jsonld" None (Some "Patient") None)).1
    = Return "sheet of /tmp/template.csv".
Proof. split_and!; by vm_compute. Qed.
